(** * VolumeAdjustW12_2: the quoting engine of the AutoTrader

    A shallow embedding of [example_models/VolumeAdjustW12_2.py] and the
    properties of its event handlers.

    Python integers are [Z]; Python floats are the kernel's binary64
    [float]s, whose operations round exactly as CPython's do; the sets
    [bids] and [asks] are [gset Z]; a handler is a computation over the
    trader's fields that emits the commands it sends to the exchange and
    may raise a Python exception part-way, keeping the assignments made
    until then. *)

From Stdlib Require Import ZArith NArith List Bool Lia Floats Sorted.
From Stdlib Require Strings.Byte.
From stdpp Require Import gmap.
Import ListNotations.

Local Open Scope Z_scope.

(** ** The Python builtins the trader calls *)

Module Py.

(** The exceptions the handlers can raise. *)
Inductive exn : Set :=
| IndexError
| ZeroDivisionError
| OverflowError
| ValueError
| UnicodeDecodeError.

(** A pure expression either evaluates or raises. *)
Inductive result (A : Type) : Type :=
| Ok (a : A)
| Raise (e : exn).
Arguments Ok {A} a.
Arguments Raise {A} e.

Definition rbind {A B} (r : result A) (k : A -> result B) : result B :=
  match r with
  | Ok a => k a
  | Raise e => Raise e
  end.

#[global] Instance result_ret : MRet result := @Ok.
#[global] Instance result_bind : MBind result := fun A B k r => rbind r k.

(** [seq[i]]: a negative index counts from the end. *)
Definition getitem {A} (l : list A) (i : Z) : result A :=
  let n := Z.of_nat (length l) in
  let j := if i <? 0 then i + n else i in
  if j <? 0 then Raise IndexError
  else match nth_error l (Z.to_nat j) with
       | Some x => Ok x
       | None => Raise IndexError
       end.

(** [x in seq] on integers. *)
Definition contains (x : Z) (l : list Z) : bool := existsb (Z.eqb x) l.

(** Conversion of an [int] operand to [float] in mixed arithmetic: the
    nearest binary64 value, ties to even; [OverflowError] when that value
    is not finite. *)
Definition float_of_int (n : Z) : result float :=
  let f := SF2Prim (binary_normalize prec emax n 0 false) in
  if is_infinity f then Raise OverflowError else Ok f.

(** [n * w] with [n] an int and [w] a float. *)
Definition int_mul_float (n : Z) (w : float) : result float :=
  f ← float_of_int n; Ok (f * w)%float.

(** [a / b] on floats: a zero divisor of either sign raises. *)
Definition truediv (a b : float) : result float :=
  if (b =? 0)%float then Raise ZeroDivisionError else Ok (a / b)%float.

(** [a / n] with [n] an int. *)
Definition truediv_int (a : float) (n : Z) : result float :=
  d ← float_of_int n; truediv a d.

(** [int(f)]: truncation towards zero; NaN and the infinities raise. *)
Definition int_of_float (f : float) : result Z :=
  match Prim2SF f with
  | S754_nan => Raise ValueError
  | S754_infinity _ => Raise OverflowError
  | S754_zero _ => Ok 0
  | S754_finite sg m e => Ok (cond_Zopp sg (Z.shiftl (Zpos m) e))
  end.

(** [bisect.bisect] (that is, [bisect_right]): the binary search of the
    standard library; its loop halves [hi - lo], so one more step than the
    list has elements is fuel enough. *)
Fixpoint bisect_loop (fuel : nat) (a : list Z) (x : Z) (lo hi : nat) : nat :=
  match fuel with
  | O => lo
  | S fuel' =>
      if (lo <? hi)%nat then
        let mid := ((lo + hi) / 2)%nat in
        if x <? nth mid a 0
        then bisect_loop fuel' a x lo mid
        else bisect_loop fuel' a x (S mid) hi
      else lo
  end.

Definition bisect (a : list Z) (x : Z) : nat :=
  bisect_loop (S (length a)) a x 0 (length a).

(** [bytes.decode()]: strict UTF-8. The result is the list of code
    points; an ill-formed sequence raises [UnicodeDecodeError]. *)
Definition is_cont (b : Byte.byte) : bool :=
  let n := Byte.to_N b in ((128 <=? n) && (n <=? 191))%N.

Definition in_range (lo hi : N) (b : Byte.byte) : bool :=
  let n := Byte.to_N b in ((lo <=? n) && (n <=? hi))%N.

Definition low6 (b : Byte.byte) : N := (Byte.to_N b mod 64)%N.

Fixpoint decode (bs : list Byte.byte) : result (list N) :=
  match bs with
  | [] => Ok []
  | b0 :: r0 =>
      let n0 := Byte.to_N b0 in
      if (n0 <=? 127)%N then
        cps ← decode r0; Ok (n0 :: cps)
      else if in_range 194 223 b0 then
        match r0 with
        | b1 :: r1 =>
            if is_cont b1 then
              cps ← decode r1;
              Ok (((n0 mod 32) * 64 + low6 b1)%N :: cps)
            else Raise UnicodeDecodeError
        | _ => Raise UnicodeDecodeError
        end
      else if in_range 224 239 b0 then
        match r0 with
        | b1 :: b2 :: r2 =>
            if (if (n0 =? 224)%N then in_range 160 191 b1
                else if (n0 =? 237)%N then in_range 128 159 b1
                else is_cont b1) && is_cont b2
            then
              cps ← decode r2;
              Ok ((((n0 mod 16) * 64 + low6 b1) * 64 + low6 b2)%N :: cps)
            else Raise UnicodeDecodeError
        | _ => Raise UnicodeDecodeError
        end
      else if in_range 240 244 b0 then
        match r0 with
        | b1 :: b2 :: b3 :: r3 =>
            if (if (n0 =? 240)%N then in_range 144 191 b1
                else if (n0 =? 244)%N then in_range 128 143 b1
                else is_cont b1) && is_cont b2 && is_cont b3
            then
              cps ← decode r3;
              Ok (((((n0 mod 8) * 64 + low6 b1) * 64 + low6 b2) * 64
                   + low6 b3)%N :: cps)
            else Raise UnicodeDecodeError
        | _ => Raise UnicodeDecodeError
        end
      else Raise UnicodeDecodeError
  end.

End Py.

Import Py.

(** ** What the trader imports from [ready_trader_go] *)

(** Modelled from the spec: the [Side] enumeration of [ready_trader_go],
    which is not among the sources. A quote is a buy or a sell; [ASK] and
    [BID] are the exchange's other names for the sell and the buy side. *)
Inductive Side : Set := SELL | BUY.
Definition ASK : Side := SELL.
Definition BID : Side := BUY.

(** Modelled from the spec: the [Lifespan] enumeration of
    [ready_trader_go]; quotes are inserted good for the day. *)
Inductive Lifespan : Set := FILL_AND_KILL | GOOD_FOR_DAY.

(** ** Commands and state *)

(** What a handler asks of the exchange session, and the one call that
    suspends it. *)
Inductive command : Type :=
| send_cancel_order (client_order_id : Z)
| send_insert_order (client_order_id : Z) (side : Side) (price volume : Z)
    (lifespan : Lifespan)
| send_hedge_order (client_order_id : Z) (side : Side) (price volume : Z)
| sleep (seconds : float).

(** The fields [__init__] creates and the handlers assign. [order_ids] is
    the next value of [itertools.count(1)]. The timestamps are floats;
    [start_second] starts as the integer 0, which every use converts to
    the float 0. The constant fields ([risk_factor], [position_step],
    [quote_ladder], [l0_w], [l1_w]) are definitions below. *)
Record AutoTrader : Type := mkAutoTrader {
  order_ids : Z;
  ask_id : Z;
  ask_price : Z;
  bid_id : Z;
  bid_price : Z;
  position : Z;
  size : Z;
  bid_volume : Z;
  ask_volume : Z;
  new_bid_price : Z;
  new_ask_price : Z;
  last_bid_id : Z;
  last_ask_id : Z;
  abs_position : Z;
  theo_price : Z;
  bids : gset Z;
  asks : gset Z;
  start_second : float;
  current_time : float;
  time_diff : float;
  action_count : Z;
  position_interval : Z
}.

Definition set_order_ids (v : Z) (s : AutoTrader) : AutoTrader :=
  {| order_ids := v; ask_id := ask_id s; ask_price := ask_price s;
     bid_id := bid_id s; bid_price := bid_price s; position := position s;
     size := size s; bid_volume := bid_volume s; ask_volume := ask_volume s;
     new_bid_price := new_bid_price s; new_ask_price := new_ask_price s;
     last_bid_id := last_bid_id s; last_ask_id := last_ask_id s;
     abs_position := abs_position s; theo_price := theo_price s;
     bids := bids s; asks := asks s; start_second := start_second s;
     current_time := current_time s; time_diff := time_diff s;
     action_count := action_count s;
     position_interval := position_interval s |}.

Definition set_ask_id (v : Z) (s : AutoTrader) : AutoTrader :=
  {| order_ids := order_ids s; ask_id := v; ask_price := ask_price s;
     bid_id := bid_id s; bid_price := bid_price s; position := position s;
     size := size s; bid_volume := bid_volume s; ask_volume := ask_volume s;
     new_bid_price := new_bid_price s; new_ask_price := new_ask_price s;
     last_bid_id := last_bid_id s; last_ask_id := last_ask_id s;
     abs_position := abs_position s; theo_price := theo_price s;
     bids := bids s; asks := asks s; start_second := start_second s;
     current_time := current_time s; time_diff := time_diff s;
     action_count := action_count s;
     position_interval := position_interval s |}.

Definition set_ask_price (v : Z) (s : AutoTrader) : AutoTrader :=
  {| order_ids := order_ids s; ask_id := ask_id s; ask_price := v;
     bid_id := bid_id s; bid_price := bid_price s; position := position s;
     size := size s; bid_volume := bid_volume s; ask_volume := ask_volume s;
     new_bid_price := new_bid_price s; new_ask_price := new_ask_price s;
     last_bid_id := last_bid_id s; last_ask_id := last_ask_id s;
     abs_position := abs_position s; theo_price := theo_price s;
     bids := bids s; asks := asks s; start_second := start_second s;
     current_time := current_time s; time_diff := time_diff s;
     action_count := action_count s;
     position_interval := position_interval s |}.

Definition set_bid_id (v : Z) (s : AutoTrader) : AutoTrader :=
  {| order_ids := order_ids s; ask_id := ask_id s; ask_price := ask_price s;
     bid_id := v; bid_price := bid_price s; position := position s;
     size := size s; bid_volume := bid_volume s; ask_volume := ask_volume s;
     new_bid_price := new_bid_price s; new_ask_price := new_ask_price s;
     last_bid_id := last_bid_id s; last_ask_id := last_ask_id s;
     abs_position := abs_position s; theo_price := theo_price s;
     bids := bids s; asks := asks s; start_second := start_second s;
     current_time := current_time s; time_diff := time_diff s;
     action_count := action_count s;
     position_interval := position_interval s |}.

Definition set_bid_price (v : Z) (s : AutoTrader) : AutoTrader :=
  {| order_ids := order_ids s; ask_id := ask_id s; ask_price := ask_price s;
     bid_id := bid_id s; bid_price := v; position := position s;
     size := size s; bid_volume := bid_volume s; ask_volume := ask_volume s;
     new_bid_price := new_bid_price s; new_ask_price := new_ask_price s;
     last_bid_id := last_bid_id s; last_ask_id := last_ask_id s;
     abs_position := abs_position s; theo_price := theo_price s;
     bids := bids s; asks := asks s; start_second := start_second s;
     current_time := current_time s; time_diff := time_diff s;
     action_count := action_count s;
     position_interval := position_interval s |}.

Definition set_position (v : Z) (s : AutoTrader) : AutoTrader :=
  {| order_ids := order_ids s; ask_id := ask_id s; ask_price := ask_price s;
     bid_id := bid_id s; bid_price := bid_price s; position := v;
     size := size s; bid_volume := bid_volume s; ask_volume := ask_volume s;
     new_bid_price := new_bid_price s; new_ask_price := new_ask_price s;
     last_bid_id := last_bid_id s; last_ask_id := last_ask_id s;
     abs_position := abs_position s; theo_price := theo_price s;
     bids := bids s; asks := asks s; start_second := start_second s;
     current_time := current_time s; time_diff := time_diff s;
     action_count := action_count s;
     position_interval := position_interval s |}.

Definition set_bid_volume (v : Z) (s : AutoTrader) : AutoTrader :=
  {| order_ids := order_ids s; ask_id := ask_id s; ask_price := ask_price s;
     bid_id := bid_id s; bid_price := bid_price s; position := position s;
     size := size s; bid_volume := v; ask_volume := ask_volume s;
     new_bid_price := new_bid_price s; new_ask_price := new_ask_price s;
     last_bid_id := last_bid_id s; last_ask_id := last_ask_id s;
     abs_position := abs_position s; theo_price := theo_price s;
     bids := bids s; asks := asks s; start_second := start_second s;
     current_time := current_time s; time_diff := time_diff s;
     action_count := action_count s;
     position_interval := position_interval s |}.

Definition set_ask_volume (v : Z) (s : AutoTrader) : AutoTrader :=
  {| order_ids := order_ids s; ask_id := ask_id s; ask_price := ask_price s;
     bid_id := bid_id s; bid_price := bid_price s; position := position s;
     size := size s; bid_volume := bid_volume s; ask_volume := v;
     new_bid_price := new_bid_price s; new_ask_price := new_ask_price s;
     last_bid_id := last_bid_id s; last_ask_id := last_ask_id s;
     abs_position := abs_position s; theo_price := theo_price s;
     bids := bids s; asks := asks s; start_second := start_second s;
     current_time := current_time s; time_diff := time_diff s;
     action_count := action_count s;
     position_interval := position_interval s |}.

Definition set_new_bid_price (v : Z) (s : AutoTrader) : AutoTrader :=
  {| order_ids := order_ids s; ask_id := ask_id s; ask_price := ask_price s;
     bid_id := bid_id s; bid_price := bid_price s; position := position s;
     size := size s; bid_volume := bid_volume s; ask_volume := ask_volume s;
     new_bid_price := v; new_ask_price := new_ask_price s;
     last_bid_id := last_bid_id s; last_ask_id := last_ask_id s;
     abs_position := abs_position s; theo_price := theo_price s;
     bids := bids s; asks := asks s; start_second := start_second s;
     current_time := current_time s; time_diff := time_diff s;
     action_count := action_count s;
     position_interval := position_interval s |}.

Definition set_new_ask_price (v : Z) (s : AutoTrader) : AutoTrader :=
  {| order_ids := order_ids s; ask_id := ask_id s; ask_price := ask_price s;
     bid_id := bid_id s; bid_price := bid_price s; position := position s;
     size := size s; bid_volume := bid_volume s; ask_volume := ask_volume s;
     new_bid_price := new_bid_price s; new_ask_price := v;
     last_bid_id := last_bid_id s; last_ask_id := last_ask_id s;
     abs_position := abs_position s; theo_price := theo_price s;
     bids := bids s; asks := asks s; start_second := start_second s;
     current_time := current_time s; time_diff := time_diff s;
     action_count := action_count s;
     position_interval := position_interval s |}.

Definition set_theo_price (v : Z) (s : AutoTrader) : AutoTrader :=
  {| order_ids := order_ids s; ask_id := ask_id s; ask_price := ask_price s;
     bid_id := bid_id s; bid_price := bid_price s; position := position s;
     size := size s; bid_volume := bid_volume s; ask_volume := ask_volume s;
     new_bid_price := new_bid_price s; new_ask_price := new_ask_price s;
     last_bid_id := last_bid_id s; last_ask_id := last_ask_id s;
     abs_position := abs_position s; theo_price := v; bids := bids s;
     asks := asks s; start_second := start_second s;
     current_time := current_time s; time_diff := time_diff s;
     action_count := action_count s;
     position_interval := position_interval s |}.

Definition set_bids (v : gset Z) (s : AutoTrader) : AutoTrader :=
  {| order_ids := order_ids s; ask_id := ask_id s; ask_price := ask_price s;
     bid_id := bid_id s; bid_price := bid_price s; position := position s;
     size := size s; bid_volume := bid_volume s; ask_volume := ask_volume s;
     new_bid_price := new_bid_price s; new_ask_price := new_ask_price s;
     last_bid_id := last_bid_id s; last_ask_id := last_ask_id s;
     abs_position := abs_position s; theo_price := theo_price s; bids := v;
     asks := asks s; start_second := start_second s;
     current_time := current_time s; time_diff := time_diff s;
     action_count := action_count s;
     position_interval := position_interval s |}.

Definition set_asks (v : gset Z) (s : AutoTrader) : AutoTrader :=
  {| order_ids := order_ids s; ask_id := ask_id s; ask_price := ask_price s;
     bid_id := bid_id s; bid_price := bid_price s; position := position s;
     size := size s; bid_volume := bid_volume s; ask_volume := ask_volume s;
     new_bid_price := new_bid_price s; new_ask_price := new_ask_price s;
     last_bid_id := last_bid_id s; last_ask_id := last_ask_id s;
     abs_position := abs_position s; theo_price := theo_price s;
     bids := bids s; asks := v; start_second := start_second s;
     current_time := current_time s; time_diff := time_diff s;
     action_count := action_count s;
     position_interval := position_interval s |}.

Definition set_start_second (v : float) (s : AutoTrader) : AutoTrader :=
  {| order_ids := order_ids s; ask_id := ask_id s; ask_price := ask_price s;
     bid_id := bid_id s; bid_price := bid_price s; position := position s;
     size := size s; bid_volume := bid_volume s; ask_volume := ask_volume s;
     new_bid_price := new_bid_price s; new_ask_price := new_ask_price s;
     last_bid_id := last_bid_id s; last_ask_id := last_ask_id s;
     abs_position := abs_position s; theo_price := theo_price s;
     bids := bids s; asks := asks s; start_second := v;
     current_time := current_time s; time_diff := time_diff s;
     action_count := action_count s;
     position_interval := position_interval s |}.

Definition set_current_time (v : float) (s : AutoTrader) : AutoTrader :=
  {| order_ids := order_ids s; ask_id := ask_id s; ask_price := ask_price s;
     bid_id := bid_id s; bid_price := bid_price s; position := position s;
     size := size s; bid_volume := bid_volume s; ask_volume := ask_volume s;
     new_bid_price := new_bid_price s; new_ask_price := new_ask_price s;
     last_bid_id := last_bid_id s; last_ask_id := last_ask_id s;
     abs_position := abs_position s; theo_price := theo_price s;
     bids := bids s; asks := asks s; start_second := start_second s;
     current_time := v; time_diff := time_diff s;
     action_count := action_count s;
     position_interval := position_interval s |}.

Definition set_time_diff (v : float) (s : AutoTrader) : AutoTrader :=
  {| order_ids := order_ids s; ask_id := ask_id s; ask_price := ask_price s;
     bid_id := bid_id s; bid_price := bid_price s; position := position s;
     size := size s; bid_volume := bid_volume s; ask_volume := ask_volume s;
     new_bid_price := new_bid_price s; new_ask_price := new_ask_price s;
     last_bid_id := last_bid_id s; last_ask_id := last_ask_id s;
     abs_position := abs_position s; theo_price := theo_price s;
     bids := bids s; asks := asks s; start_second := start_second s;
     current_time := current_time s; time_diff := v;
     action_count := action_count s;
     position_interval := position_interval s |}.

Definition set_action_count (v : Z) (s : AutoTrader) : AutoTrader :=
  {| order_ids := order_ids s; ask_id := ask_id s; ask_price := ask_price s;
     bid_id := bid_id s; bid_price := bid_price s; position := position s;
     size := size s; bid_volume := bid_volume s; ask_volume := ask_volume s;
     new_bid_price := new_bid_price s; new_ask_price := new_ask_price s;
     last_bid_id := last_bid_id s; last_ask_id := last_ask_id s;
     abs_position := abs_position s; theo_price := theo_price s;
     bids := bids s; asks := asks s; start_second := start_second s;
     current_time := current_time s; time_diff := time_diff s;
     action_count := v; position_interval := position_interval s |}.

Definition set_position_interval (v : Z) (s : AutoTrader) : AutoTrader :=
  {| order_ids := order_ids s; ask_id := ask_id s; ask_price := ask_price s;
     bid_id := bid_id s; bid_price := bid_price s; position := position s;
     size := size s; bid_volume := bid_volume s; ask_volume := ask_volume s;
     new_bid_price := new_bid_price s; new_ask_price := new_ask_price s;
     last_bid_id := last_bid_id s; last_ask_id := last_ask_id s;
     abs_position := abs_position s; theo_price := theo_price s;
     bids := bids s; asks := asks s; start_second := start_second s;
     current_time := current_time s; time_diff := time_diff s;
     action_count := action_count s; position_interval := v |}.

(** ** The handler monad

    A handler reads and assigns the trader's fields, emits commands and
    may raise; the fields assigned and the commands sent before an
    exception stay as they are. *)
Inductive outcome (A : Type) : Type :=
| Returned (a : A) (s : AutoTrader) (out : list command)
| Raised (e : exn) (s : AutoTrader) (out : list command).
Arguments Returned {A} a s out.
Arguments Raised {A} e s out.

Definition final {A} (o : outcome A) : AutoTrader :=
  match o with Returned _ s _ | Raised _ s _ => s end.

Definition sent {A} (o : outcome A) : list command :=
  match o with Returned _ _ out | Raised _ _ out => out end.

Definition raised {A} (o : outcome A) : option exn :=
  match o with Returned _ _ _ => None | Raised e _ _ => Some e end.

Definition M (A : Type) : Type := AutoTrader -> outcome A.

Definition ret {A} (a : A) : M A := fun s => Returned a s [].

Definition bind {A B} (m : M A) (k : A -> M B) : M B :=
  fun s =>
    match m s with
    | Returned a s1 out1 =>
        match k a s1 with
        | Returned b s2 out2 => Returned b s2 (out1 ++ out2)
        | Raised e s2 out2 => Raised e s2 (out1 ++ out2)
        end
    | Raised e s1 out1 => Raised e s1 out1
    end.

#[global] Instance M_ret : MRet M := @ret.
#[global] Instance M_bind : MBind M := fun A B k m => bind m k.

Definition get : M AutoTrader := fun s => Returned s s [].
Definition modify (f : AutoTrader -> AutoTrader) : M unit :=
  fun s => Returned tt (f s) [].
Definition emit (c : command) : M unit := fun s => Returned tt s [c].
Definition lift {A} (r : result A) : M A :=
  fun s => match r with Ok a => Returned a s [] | Raise e => Raised e s [] end.
Definition when (b : bool) (m : M unit) : M unit := if b then m else ret tt.

(** [next(self.order_ids)] *)
Definition next_order_id : M Z :=
  s ← get;
  modify (set_order_ids (order_ids s + 1));;
  ret (order_ids s).

(** [self.action_count += 1] *)
Definition count_action : M unit :=
  modify (fun s => set_action_count (action_count s + 1) s).

(** ** The trader *)

Section Trader.

(** [Instrument.FUTURE], [MINIMUM_BID] and [MAXIMUM_ASK] come from
    [ready_trader_go]; the handlers are read for any values of them. *)
Variable FUTURE : Z.
Variables MINIMUM_BID MAXIMUM_ASK : Z.

Definition LOT_SIZE : Z := 10.
Definition POSITION_LIMIT : Z := 100.
Definition TICK_SIZE_IN_CENTS : Z := 100.
Definition MIN_BID_NEAREST_TICK : Z :=
  (MINIMUM_BID + TICK_SIZE_IN_CENTS) / TICK_SIZE_IN_CENTS * TICK_SIZE_IN_CENTS.
Definition MAX_ASK_NEAREST_TICK : Z :=
  MAXIMUM_ASK / TICK_SIZE_IN_CENTS * TICK_SIZE_IN_CENTS.

Definition risk_factor : Z := 4.

Definition position_step : list Z :=
  [-94; -90; -81; -64; -44; 0; 1; 45; 65; 82; 91; 95].

Definition quote_ladder : list (Z * Z) :=
  [ (95, 97);
    (95, 95);
    (85, 90);
    (65, 82);
    (45, 70);
    (49 - risk_factor, 49 - risk_factor);
    (30, 30);
    (49 - risk_factor, 49 - risk_factor);
    (70 - risk_factor, 45 - risk_factor);
    (81 - risk_factor, 65);
    (90 - risk_factor, 85);
    (95 - risk_factor, 95);
    (97 - risk_factor, 95) ].

(** The literals 0.35, 0.65 and 1.01, as the binary64 values Python reads
    them to. *)
Definition l0_w : float := 0x1.6666666666666p-2%float.
Definition l1_w : float := 0x1.4cccccccccccdp-1%float.
Definition sleep_base : float := 0x1.028f5c28f5c29p+0%float.

(** [__init__] *)
Definition init : AutoTrader :=
  {| order_ids := 1; ask_id := 0; ask_price := 0; bid_id := 0; bid_price := 0;
     position := 0; size := 0; bid_volume := 0; ask_volume := 0;
     new_bid_price := 0; new_ask_price := 0; last_bid_id := 0;
     last_ask_id := 0; abs_position := 0; theo_price := 0;
     bids := ∅; asks := ∅; start_second := 0%float; current_time := 0%float;
     time_diff := 0%float; action_count := 0; position_interval := 0 |}.

(** *** [on_order_book_update_message] *)

(** The quotient of lines 123-138, operands in evaluation order. *)
Definition weighted_average
    (ask_prices ask_volumes bid_prices bid_volumes : list Z) : result float :=
  bp0 ← getitem bid_prices 0;
  bv0 ← getitem bid_volumes 0;
  n0 ← int_mul_float (bp0 * bv0) l0_w;
  bp1 ← getitem bid_prices 1;
  bv1 ← getitem bid_volumes 1;
  n1 ← int_mul_float (bp1 * bv1) l1_w;
  ap0 ← getitem ask_prices 0;
  av0 ← getitem ask_volumes 0;
  n2 ← int_mul_float (ap0 * av0) l0_w;
  ap1 ← getitem ask_prices 1;
  av1 ← getitem ask_volumes 1;
  n3 ← int_mul_float (ap1 * av1) l1_w;
  bv0' ← getitem bid_volumes 0;
  d0 ← int_mul_float bv0' l0_w;
  bv1' ← getitem bid_volumes 1;
  d1 ← int_mul_float bv1' l1_w;
  av0' ← getitem ask_volumes 0;
  d2 ← int_mul_float av0' l0_w;
  av1' ← getitem ask_volumes 1;
  d3 ← int_mul_float av1' l1_w;
  truediv (((n0 + n1) + n2) + n3)%float ((d0 + d1) + (d2 + d3))%float.

(** The value assigned to [theo_price]: [int(average / 100) * 100]. *)
Definition theoretical_price
    (ask_prices ask_volumes bid_prices bid_volumes : list Z) : result Z :=
  avg ← weighted_average ask_prices ask_volumes bid_prices bid_volumes;
  q ← truediv_int avg 100;
  n ← int_of_float q;
  Ok (n * 100).

(** Lines 119-147. *)
Definition update_theo
    (ask_prices ask_volumes bid_prices bid_volumes : list Z) : M unit :=
  s ← get;
  when (negb (contains 0 bid_prices) && (action_count s <=? 16))
    (theo ← lift (theoretical_price ask_prices ask_volumes
                    bid_prices bid_volumes);
     modify (set_theo_price theo);;
     bp0 ← lift (getitem bid_prices 0);
     modify (fun s => set_new_bid_price
                        (if negb (bp0 =? 0) then theo_price s - 100 else 0) s);;
     ap0 ← lift (getitem ask_prices 0);
     modify (fun s => set_new_ask_price
                        (if negb (ap0 =? 0) then theo_price s + 100 else 0) s)).

(** [x not in (a, 0)] *)
Definition not_in_pair (x a : Z) : bool := negb ((x =? a) || (x =? 0)).

(** Lines 153-160. *)
Definition cancel_stale : M unit :=
  s ← get;
  when (negb (bid_id s =? 0) && not_in_pair (new_bid_price s) (bid_price s))
    (emit (send_cancel_order (bid_id s));;
     modify (set_bid_id 0);;
     count_action);;
  s ← get;
  when (negb (ask_id s =? 0) && not_in_pair (new_ask_price s) (ask_price s))
    (emit (send_cancel_order (ask_id s));;
     modify (set_ask_id 0);;
     count_action).

(** Lines 165-178: the volumes for the current position. *)
Definition size_quotes : M unit :=
  s ← get;
  modify (set_position_interval (Z.of_nat (bisect position_step (position s))));;
  s ← get;
  bucket ← lift (getitem quote_ladder (position_interval s));
  modify (set_bid_volume (fst bucket));;
  modify (set_ask_volume (snd bucket));;
  s ← get;
  (if 0 <=? position s
   then modify (set_bid_volume (bid_volume s - position s))
   else modify (set_ask_volume (ask_volume s - Z.abs (position s))));;
  s ← get;
  modify (set_bid_volume (if bid_volume s <? 0 then 0 else bid_volume s));;
  s ← get;
  modify (set_ask_volume (if ask_volume s <? 0 then 0 else ask_volume s)).

(** Lines 181-214. *)
Definition place_quotes : M unit :=
  s ← get;
  when ((bid_id s =? 0) && negb (new_bid_price s =? 0)
        && negb (bid_volume s =? 0))
    (id ← next_order_id;
     modify (set_bid_id id);;
     s ← get;
     modify (set_bid_price (new_bid_price s));;
     s ← get;
     emit (send_insert_order (bid_id s) BUY (new_bid_price s) (bid_volume s)
             GOOD_FOR_DAY);;
     modify (fun s => set_bids (bids s ∪ {[bid_id s]}) s);;
     count_action);;
  s ← get;
  when ((ask_id s =? 0) && negb (new_ask_price s =? 0)
        && negb (ask_volume s =? 0))
    (id ← next_order_id;
     modify (set_ask_id id);;
     s ← get;
     modify (set_ask_price (new_ask_price s));;
     s ← get;
     emit (send_insert_order (ask_id s) SELL (new_ask_price s) (ask_volume s)
             GOOD_FOR_DAY);;
     modify (fun s => set_asks (asks s ∪ {[ask_id s]}) s);;
     count_action).

(** Lines 218-227; [now] is what [time.time()] returns. *)
Definition reset_window (now : float) : M unit :=
  modify (set_current_time now);;
  modify (fun s => set_time_diff (current_time s - start_second s)%float s);;
  s ← get;
  when (time_diff s <? 1)%float
    (emit (sleep (sleep_base - time_diff s)%float));;
  modify (set_action_count 0).

(** The handler. It reads the clock at most once: in line 116 when the
    counter is 0, in line 218 when the counter is above 14 after the
    cancellations, and a counter of 0 is at most 2 by then. *)
Definition on_order_book_update_message (now : float)
    (instrument sequence_number : Z)
    (ask_prices ask_volumes bid_prices bid_volumes : list Z) : M unit :=
  if instrument =? FUTURE then
    s ← get;
    when (action_count s =? 0) (modify (set_start_second now));;
    update_theo ask_prices ask_volumes bid_prices bid_volumes;;
    s ← get;
    when (action_count s <=? 16) cancel_stale;;
    s ← get;
    if action_count s <=? 14 then size_quotes;; place_quotes
    else if 14 <=? action_count s then reset_window now
    else ret tt
  else ret tt.

(** *** [on_order_status_message] *)
Definition on_order_status_message
    (client_order_id fill_volume remaining_volume fees : Z) : M unit :=
  when (remaining_volume =? 0)
    (s ← get;
     (if client_order_id =? bid_id s then modify (set_bid_id 0)
      else if client_order_id =? ask_id s then modify (set_ask_id 0)
      else ret tt);;
     modify (fun s => set_bids (bids s ∖ {[client_order_id]}) s);;
     modify (fun s => set_asks (asks s ∖ {[client_order_id]}) s)).

(** *** [on_error_message]

    [print] and [logger.warning] write to the console and the log only;
    what they contribute is the evaluation of their arguments, where
    [error_message.decode()] can raise. The console is taken to accept
    the text: a standard output that cannot encode it, or is closed,
    makes [print] itself raise, before the status update and with every
    field as it was. *)
Definition on_error_message (client_order_id : Z)
    (error_message : list Byte.byte) : M unit :=
  lift (decode error_message);;
  lift (decode error_message);;
  on_order_status_message client_order_id 0 0 0.

(** *** [on_order_filled_message] *)
Definition on_order_filled_message (client_order_id price volume : Z)
    : M unit :=
  s ← get;
  if bool_decide (client_order_id ∈ bids s) then
    modify (fun s => set_position (position s + volume) s);;
    id ← next_order_id;
    emit (send_hedge_order id ASK MIN_BID_NEAREST_TICK volume)
  else if bool_decide (client_order_id ∈ asks s) then
    modify (fun s => set_position (position s - volume) s);;
    id ← next_order_id;
    emit (send_hedge_order id BID MAX_ASK_NEAREST_TICK volume)
  else ret tt.

(** *** [on_trade_ticks_message]: logs only. *)
Definition on_trade_ticks_message (instrument sequence_number : Z)
    (ask_prices ask_volumes bid_prices bid_volumes : list Z) : M unit :=
  ret tt.

(** ** Event sequences *)

(** The messages the exchange session delivers; a book update comes with
    the reading of the clock its handler will get. *)
Inductive event : Type :=
| OrderBookUpdate (now : float) (instrument sequence_number : Z)
    (ask_prices ask_volumes bid_prices bid_volumes : list Z)
| OrderStatus (client_order_id fill_volume remaining_volume fees : Z)
| OrderFilled (client_order_id price volume : Z)
| Error (client_order_id : Z) (error_message : list Byte.byte)
| TradeTicks (instrument sequence_number : Z)
    (ask_prices ask_volumes bid_prices bid_volumes : list Z).

Definition handle (ev : event) : M unit :=
  match ev with
  | OrderBookUpdate now i n ap av bp bv =>
      on_order_book_update_message now i n ap av bp bv
  | OrderStatus id f r fees => on_order_status_message id f r fees
  | OrderFilled id p v => on_order_filled_message id p v
  | Error id msg => on_error_message id msg
  | TradeTicks i n ap av bp bv => on_trade_ticks_message i n ap av bp bv
  end.

(** The trader after a sequence of events, and every command it sent, in
    order. An exception ends the handler that raised it; the run goes on
    with the fields as that handler left them, which covers a session
    that stops at the exception (its run is a prefix) and one that
    survives it. *)
Fixpoint run (s : AutoTrader) (evs : list event) : AutoTrader * list command :=
  match evs with
  | [] => (s, [])
  | ev :: evs' =>
      let o := handle ev s in
      let '(s', out) := run (final o) evs' in
      (s', sent o ++ out)
  end.

Definition reachable (s : AutoTrader) : Prop :=
  exists evs, fst (run init evs) = s.

(** The identities of the orders a command trace creates. *)
Definition issued_id (c : command) : option Z :=
  match c with
  | send_insert_order id _ _ _ _ => Some id
  | send_hedge_order id _ _ _ => Some id
  | _ => None
  end.

Definition issued_ids (out : list command) : list Z :=
  omap issued_id out.

(** A sequence of book updates none of which changes a target price. *)
Fixpoint steady (s : AutoTrader) (evs : list event) : Prop :=
  match evs with
  | [] => True
  | ev :: evs' =>
      (exists now i n ap av bp bv, ev = OrderBookUpdate now i n ap av bp bv) /\
      new_bid_price (final (handle ev s)) = new_bid_price s /\
      new_ask_price (final (handle ev s)) = new_ask_price s /\
      steady (final (handle ev s)) evs'
  end.

End Trader.

(** ** The handlers in closed form

    The states and command lists the phases of a handler produce, as
    plain functions of the state before; the lemmas below prove each
    phase equal to its closed form. *)

(** The breakpoints cut the positions into thirteen buckets. *)
Inductive bucket_of (p : Z) : nat -> Prop :=
| bucket0 : p < -94 -> bucket_of p 0
| bucket1 : -94 <= p < -90 -> bucket_of p 1
| bucket2 : -90 <= p < -81 -> bucket_of p 2
| bucket3 : -81 <= p < -64 -> bucket_of p 3
| bucket4 : -64 <= p < -44 -> bucket_of p 4
| bucket5 : -44 <= p < 0 -> bucket_of p 5
| bucket6 : p = 0 -> bucket_of p 6
| bucket7 : 1 <= p < 45 -> bucket_of p 7
| bucket8 : 45 <= p < 65 -> bucket_of p 8
| bucket9 : 65 <= p < 82 -> bucket_of p 9
| bucket10 : 82 <= p < 91 -> bucket_of p 10
| bucket11 : 91 <= p < 95 -> bucket_of p 11
| bucket12 : 95 <= p -> bucket_of p 12.

(** What lines 165-178 leave in [bid_volume] and [ask_volume] for a
    position. *)
Definition quote_volumes (p : Z) : Z * Z :=
  let '(b, a) := nth (bisect position_step p) quote_ladder (0, 0) in
  let b' := if 0 <=? p then b - p else b in
  let a' := if 0 <=? p then a else a - Z.abs p in
  (if b' <? 0 then 0 else b', if a' <? 0 then 0 else a').

(** The state after [size_quotes]. *)
Definition sized (s : AutoTrader) : AutoTrader :=
  set_ask_volume (snd (quote_volumes (position s)))
    (set_bid_volume (fst (quote_volumes (position s)))
       (set_position_interval
          (Z.of_nat (bisect position_step (position s))) s)).

(** The condition of lines 153 and 157 for one side. *)
Definition stale (id new_price price : Z) : bool :=
  negb (id =? 0) && not_in_pair new_price price.

(** The state after each half of [cancel_stale], and its commands. *)
Definition cancel_bid (s : AutoTrader) : AutoTrader :=
  if stale (bid_id s) (new_bid_price s) (bid_price s)
  then set_action_count (action_count s + 1) (set_bid_id 0 s) else s.

Definition cancel_ask (s : AutoTrader) : AutoTrader :=
  if stale (ask_id s) (new_ask_price s) (ask_price s)
  then set_action_count (action_count s + 1) (set_ask_id 0 s) else s.

Definition cancels (s : AutoTrader) : list command :=
  (if stale (bid_id s) (new_bid_price s) (bid_price s)
   then [send_cancel_order (bid_id s)] else []) ++
  (if stale (ask_id s) (new_ask_price s) (ask_price s)
   then [send_cancel_order (ask_id s)] else []).

(** The condition of lines 181-185 and 199-203 for one side. *)
Definition quotable (id new_price volume : Z) : bool :=
  (id =? 0) && negb (new_price =? 0) && negb (volume =? 0).

(** The state after each half of [place_quotes], and its commands. *)
Definition place_bid (s : AutoTrader) : AutoTrader :=
  if quotable (bid_id s) (new_bid_price s) (bid_volume s)
  then set_action_count (action_count s + 1)
         (set_bids (bids s ∪ {[order_ids s]})
            (set_bid_price (new_bid_price s)
               (set_bid_id (order_ids s)
                  (set_order_ids (order_ids s + 1) s))))
  else s.

Definition place_ask (s : AutoTrader) : AutoTrader :=
  if quotable (ask_id s) (new_ask_price s) (ask_volume s)
  then set_action_count (action_count s + 1)
         (set_asks (asks s ∪ {[order_ids s]})
            (set_ask_price (new_ask_price s)
               (set_ask_id (order_ids s)
                  (set_order_ids (order_ids s + 1) s))))
  else s.

Definition bid_insert (s : AutoTrader) : list command :=
  if quotable (bid_id s) (new_bid_price s) (bid_volume s)
  then [send_insert_order (order_ids s) BUY (new_bid_price s) (bid_volume s)
          GOOD_FOR_DAY]
  else [].

Definition ask_insert (s : AutoTrader) : list command :=
  if quotable (ask_id s) (new_ask_price s) (ask_volume s)
  then [send_insert_order (order_ids s) SELL (new_ask_price s) (ask_volume s)
          GOOD_FOR_DAY]
  else [].

(** The state after [reset_window], and its command. *)
Definition window_reset (now : float) (s : AutoTrader) : AutoTrader :=
  set_action_count 0
    (set_time_diff (now - start_second s)%float (set_current_time now s)).

Definition pause (now : float) (s : AutoTrader) : list command :=
  if (now - start_second s <? 1)%float
  then [sleep (sleep_base - (now - start_second s))%float] else [].

(** The state after line 116. *)
Definition stamped (now : float) (s : AutoTrader) : AutoTrader :=
  if action_count s =? 0 then set_start_second now s else s.

(** The condition of line 119, and the state after lines 120-147 when
    the price computes. *)
Definition theo_attempted (bid_prices : list Z) (s : AutoTrader) : bool :=
  negb (contains 0 bid_prices) && (action_count s <=? 16).

Definition retarget (theo bp0 ap0 : Z) (s : AutoTrader) : AutoTrader :=
  set_new_ask_price (if negb (ap0 =? 0) then theo + 100 else 0)
    (set_new_bid_price (if negb (bp0 =? 0) then theo - 100 else 0)
       (set_theo_price theo s)).

(** What follows the price update: cancellations, then either sizing and
    placement or the wait and reset. *)
Definition after_theo (now : float) (s : AutoTrader) : outcome unit :=
  let s2 := if action_count s <=? 16 then cancel_ask (cancel_bid s) else s in
  let c2 := if action_count s <=? 16 then cancels s else [] in
  if action_count s2 <=? 14 then
    Returned tt (place_ask (place_bid (sized s2)))
      (c2 ++ bid_insert (sized s2) ++ ask_insert (place_bid (sized s2)))
  else if 14 <=? action_count s2 then
    Returned tt (window_reset now s2) (c2 ++ pause now s2)
  else Returned tt s2 c2.

(** The four ways a book update ends. *)
Inductive book_update_case (FUTURE : Z) (now : float) (instrument : Z)
    (ap av bp bv : list Z) (s : AutoTrader) : outcome unit -> Prop :=
| other_instrument :
    instrument <> FUTURE ->
    book_update_case FUTURE now instrument ap av bp bv s (Returned tt s [])
| price_raises e :
    instrument = FUTURE ->
    theo_attempted bp s = true ->
    theoretical_price ap av bp bv = Raise e ->
    book_update_case FUTURE now instrument ap av bp bv s
      (Raised e (stamped now s) [])
| price_kept :
    instrument = FUTURE ->
    theo_attempted bp s = false ->
    book_update_case FUTURE now instrument ap av bp bv s
      (after_theo now (stamped now s))
| price_updated theo bp0 ap0 :
    instrument = FUTURE ->
    theo_attempted bp s = true ->
    theoretical_price ap av bp bv = Ok theo ->
    getitem bp 0 = Ok bp0 ->
    getitem ap 0 = Ok ap0 ->
    book_update_case FUTURE now instrument ap av bp bv s
      (after_theo now (retarget theo bp0 ap0 (stamped now s))).

(** The state after [on_order_status_message] with remaining volume 0. *)
Definition closed (id : Z) (s : AutoTrader) : AutoTrader :=
  let s1 := if id =? bid_id s then set_bid_id 0 s
            else if id =? ask_id s then set_ask_id 0 s else s in
  set_asks (asks s1 ∖ {[id]}) (set_bids (bids s1 ∖ {[id]}) s1).

(** The state after a tracked fill: the position moved by [delta], one
    identity taken. *)
Definition hedged (delta : Z) (s : AutoTrader) : AutoTrader :=
  set_order_ids (order_ids s + 1) (set_position (position s + delta) s).

(** ** Invariants *)

(** What every handler keeps of the identities: the counter is ahead of
    every identity in use, the two working identities differ, and no
    identity is tracked on both sides. *)
Record ids_ok (s : AutoTrader) : Prop := {
  ids_next : 1 <= order_ids s;
  ids_bid : bid_id s = 0 \/ 1 <= bid_id s < order_ids s;
  ids_ask : ask_id s = 0 \/ 1 <= ask_id s < order_ids s;
  ids_distinct : bid_id s <> 0 -> bid_id s <> ask_id s;
  ids_bids : forall x, x ∈ bids s -> 1 <= x < order_ids s;
  ids_asks : forall x, x ∈ asks s -> 1 <= x < order_ids s;
  ids_disjoint : forall x, x ∈ bids s -> x ∉ asks s
}.

(** A working quote rests at its side's target price unless the target
    is 0. *)
Record targets_ok (s : AutoTrader) : Prop := {
  target_bid : bid_id s <> 0 ->
               new_bid_price s = bid_price s \/ new_bid_price s = 0;
  target_ask : ask_id s <> 0 ->
               new_ask_price s = ask_price s \/ new_ask_price s = 0
}.

Record inv (s : AutoTrader) : Prop := {
  inv_count : 0 <= action_count s <= 16;
  inv_ids : ids_ok s;
  inv_targets : targets_ok s
}.

(** What the cancellations, the sizing, the placement and the reset leave
    alone. *)
Definition prices_kept (s s' : AutoTrader) : Prop :=
  theo_price s' = theo_price s /\
  new_bid_price s' = new_bid_price s /\
  new_ask_price s' = new_ask_price s /\
  start_second s' = start_second s /\
  position s' = position s.

Definition is_cancel (c : command) : Prop :=
  exists id, c = send_cancel_order id.



(** An insert, if the command is one, is for a positive volume. *)
Definition positive_insert (c : command) : Prop :=
  match c with
  | send_insert_order _ _ _ volume _ => 0 < volume
  | _ => True
  end.

(** An identity is issued exactly when the counter advances. *)
Definition issued_from (s : AutoTrader) (s' : AutoTrader)
    (out : list command) : Prop :=
  order_ids s <= order_ids s' /\
  issued_ids out = seqZ (order_ids s) (order_ids s' - order_ids s).


(** ** Measures of a command trace *)

(** The commands that count against the action budget. *)
Definition is_action (c : command) : bool :=
  match c with
  | send_cancel_order _ | send_insert_order _ _ _ _ _ => true
  | _ => false
  end.

Definition actions (out : list command) : Z :=
  Z.of_nat (length (List.filter is_action out)).

(** What a hedge tells of the fill behind it: a sell hedge answers a
    bought volume, a buy hedge a sold one. *)
Definition hedge_delta (c : command) : Z :=
  match c with
  | send_hedge_order _ SELL _ volume => volume
  | send_hedge_order _ BUY _ volume => - volume
  | _ => 0
  end.

Definition net_hedged (out : list command) : Z :=
  fold_right (fun c acc => hedge_delta c + acc) 0 out.

Definition hedge_id (c : command) : option Z :=
  match c with
  | send_hedge_order id _ _ _ => Some id
  | _ => None
  end.

Definition is_insert (c : command) : Prop :=
  exists id side price volume,
    c = send_insert_order id side price volume GOOD_FOR_DAY.

Definition is_sleep (c : command) : Prop := exists d, c = sleep d.

(** A quote is one tick below the fair value when a bid, one tick above
    when an ask. *)
Definition quoted_around (theo : Z) (c : command) : Prop :=
  match c with
  | send_insert_order _ BUY price _ _ => price = theo - TICK_SIZE_IN_CENTS
  | send_insert_order _ SELL price _ _ => price = theo + TICK_SIZE_IN_CENTS
  | _ => True
  end.

(** A quote that, filled in full from position [p], keeps the position
    within the limit. *)
Definition within_limit (p : Z) (c : command) : Prop :=
  match c with
  | send_insert_order _ BUY _ volume _ => p + volume <= POSITION_LIMIT
  | send_insert_order _ SELL _ volume _ => - POSITION_LIMIT <= p - volume
  | _ => True
  end.

(** The fair value is on the tick grid and each target is 0 or one tick
    from it. *)
Record prices_ok (s : AutoTrader) : Prop := {
  theo_on_grid : theo_price s mod TICK_SIZE_IN_CENTS = 0;
  bid_target : new_bid_price s = 0 \/
               new_bid_price s = theo_price s - TICK_SIZE_IN_CENTS;
  ask_target : new_ask_price s = 0 \/
               new_ask_price s = theo_price s + TICK_SIZE_IN_CENTS
}.

(** A working quote is tracked on its side. *)
Record working_tracked (s : AutoTrader) : Prop := {
  bid_tracked : bid_id s <> 0 -> bid_id s ∈ bids s;
  ask_tracked : ask_id s <> 0 -> ask_id s ∈ asks s
}.

Definition hedge_ids (out : list command) : list Z := omap hedge_id out.

(** From [s] to [s'] the counter did not go back and whatever is newly
    tracked was issued in between. *)
Record sets_fresh (s s' : AutoTrader) : Prop := {
  fresh_counter : order_ids s <= order_ids s';
  fresh_bids : forall x, x ∈ bids s' ->
                 x ∈ bids s \/ order_ids s <= x < order_ids s';
  fresh_asks : forall x, x ∈ asks s' ->
                 x ∈ asks s \/ order_ids s <= x < order_ids s'
}.

(** From [s] to [s'] nothing tracked was dropped. *)
Record sets_kept (s s' : AutoTrader) : Prop := {
  kept_bids : forall x, x ∈ bids s -> x ∈ bids s';
  kept_asks : forall x, x ∈ asks s -> x ∈ asks s'
}.


(** A side with a target and a volume to quote has an order working at
    the target. *)
Record rests_at_target (s : AutoTrader) : Prop := {
  bid_rests : new_bid_price s <> 0 -> bid_volume s <> 0 ->
              bid_id s <> 0 /\ bid_price s = new_bid_price s;
  ask_rests : new_ask_price s <> 0 -> ask_volume s <> 0 ->
              ask_id s <> 0 /\ ask_price s = new_ask_price s
}.

(** Fills reported one after the other for the same order, each with its
    price and volume, and their total volume. *)
Definition fills (id : Z) (pvs : list (Z * Z)) : list event :=
  map (fun pv => OrderFilled id (fst pv) (snd pv)) pvs.

Definition total (vs : list Z) : Z := fold_right Z.add 0 vs.

(** The events [on_error_message] handles. *)
Definition is_error_message (ev : event) : bool :=
  match ev with
  | Error _ _ => true
  | _ => false
  end.

(** ** Concrete runs *)

(** Values for the imported constants in the runs below. *)
Definition FUTURE_0 : Z := 0.
Definition MINIMUM_BID_1 : Z := 1.
Definition MAXIMUM_ASK_31 : Z := 2147483647.

Definition trader_handle : event -> M unit :=
  handle FUTURE_0 MINIMUM_BID_1 MAXIMUM_ASK_31.
Definition trader_run : AutoTrader -> list event -> AutoTrader * list command :=
  run FUTURE_0 MINIMUM_BID_1 MAXIMUM_ASK_31.

(** The levels of a two-sided book around 1050 and of one around 2050. *)
Definition asks_1100 : list Z := [1100; 1200; 1300; 1400; 1500].
Definition bids_1000 : list Z := [1000; 900; 800; 700; 600].
Definition asks_2060 : list Z := [2060; 2070; 2080; 2090; 2100].
Definition bids_2050 : list Z := [2050; 2040; 2030; 2020; 2010].
Definition tens : list Z := [10; 10; 10; 10; 10].
Definition zeros : list Z := [0; 0; 0; 0; 0].

(** A bid side with two levels only; the exchange reports 0 for the
    missing ones. *)
Definition bids_1000_thin : list Z := [1000; 900; 0; 0; 0].
Definition volumes_thin : list Z := [10; 10; 0; 0; 0].

Definition book_1050 (now : float) : event :=
  OrderBookUpdate now FUTURE_0 1 asks_1100 tens bids_1000 tens.
Definition book_2050 (now : float) : event :=
  OrderBookUpdate now FUTURE_0 2 asks_2060 tens bids_2050 tens.

(** The book around 2050 with its ask side empty. *)
Definition book_2050_no_asks (now : float) : event :=
  OrderBookUpdate now FUTURE_0 3 zeros zeros bids_2050 tens.




(** ** Tactics *)

(** Decide every comparison of the goal that the hypotheses settle. *)
Ltac settle_ltb :=
  repeat match goal with
  | |- context [?a <? ?b] =>
      first [ rewrite (proj2 (Z.ltb_lt a b)) by lia
            | rewrite (proj2 (Z.ltb_ge a b)) by lia ]
  | |- context [?a <=? ?b] =>
      first [ rewrite (proj2 (Z.leb_le a b)) by lia
            | rewrite (proj2 (Z.leb_gt a b)) by lia ]
  end.

(** Run the monad's plumbing, leaving the field updates in place. *)
Ltac run_m :=
  cbv beta iota delta
    [mbind M_bind mret M_ret result_bind result_ret rbind bind ret get modify
     emit lift when next_order_id count_action].

Ltac destruct_trader s :=
  destruct s as [oi ai ap bi bp p sz bv av nbp nap lbi lai absp theo
                 bs as_ ss ct td ac pi].

Ltac bool_to_prop :=
  repeat match goal with
  | H : _ && _ = true |- _ => apply andb_true_iff in H as [? ?]
  | H : _ && _ = false |- _ => apply andb_false_iff in H as [?|?]
  | H : _ || _ = true |- _ => apply orb_true_iff in H as [?|?]
  | H : _ || _ = false |- _ => apply orb_false_iff in H as [? ?]
  | H : negb _ = true |- _ => apply negb_true_iff in H
  | H : negb _ = false |- _ => apply negb_false_iff in H
  | H : (_ =? _) = true |- _ => apply Z.eqb_eq in H
  | H : (_ =? _) = false |- _ => apply Z.eqb_neq in H
  | H : (_ <=? _) = true |- _ => apply Z.leb_le in H
  | H : (_ <=? _) = false |- _ => apply Z.leb_gt in H
  | H : (_ <? _) = true |- _ => apply Z.ltb_lt in H
  | H : (_ <? _) = false |- _ => apply Z.ltb_ge in H
  end.

Arguments bisect : simpl never.
Arguments stale : simpl never.
Arguments quotable : simpl never.
Arguments quote_volumes : simpl never.

(** * Properties *)

(** ** Sizing *)

(** The binary search finds the bucket of every position; in particular
    its fuel suffices. *)
Lemma bisect_position_step (p : Z) : bucket_of p (bisect position_step p).
Proof.
  unfold bisect, position_step. cbn -[Z.ltb].
  assert (p < -94 \/ -94 <= p < -90 \/ -90 <= p < -81 \/ -81 <= p < -64 \/
          -64 <= p < -44 \/ -44 <= p < 0 \/ p = 0 \/ 1 <= p < 45 \/
          45 <= p < 65 \/ 65 <= p < 82 \/ 82 <= p < 91 \/ 91 <= p < 95 \/
          95 <= p) as H by lia.
  repeat (destruct H as [H | H]); settle_ltb;
    [ apply bucket0 | apply bucket1 | apply bucket2 | apply bucket3
    | apply bucket4 | apply bucket5 | apply bucket6 | apply bucket7
    | apply bucket8 | apply bucket9 | apply bucket10 | apply bucket11
    | apply bucket12 ]; exact H.
Qed.

(** The sizing step returns for every position, with the volumes of
    [quote_volumes]. *)
Lemma size_quotes_returns (s : AutoTrader) :
  size_quotes s = Returned tt (sized s) [].
Proof.
  destruct_trader s.
  unfold size_quotes, sized, quote_volumes. run_m.
  cbn [position set_position_interval position_interval].
  pose proof (bisect_position_step p) as Hb.
  remember (bisect position_step p) as i eqn:Hi. clear Hi.
  destruct Hb; destruct p; try lia; reflexivity.
Qed.

(** ** The phases of a book update in closed form *)

(** The cancellations always return. *)
Lemma cancel_stale_returns (s : AutoTrader) :
  cancel_stale s = Returned tt (cancel_ask (cancel_bid s)) (cancels s).
Proof.
  unfold cancel_stale, cancel_ask, cancel_bid, cancels, stale. run_m.
  destruct s; cbn.
  repeat match goal with
  | |- context [negb (?a =? 0) && not_in_pair ?x ?y] =>
      destruct (negb (a =? 0) && not_in_pair x y); cbn
  end; reflexivity.
Qed.

(** So does the placement; the ask takes the identity after the bid's
    when both are inserted. *)
Lemma place_quotes_returns (s : AutoTrader) :
  place_quotes s =
  Returned tt (place_ask (place_bid s))
    (bid_insert s ++ ask_insert (place_bid s)).
Proof.
  unfold place_quotes, place_ask, place_bid, bid_insert, ask_insert, quotable.
  run_m. destruct s; cbn.
  repeat match goal with
  | |- context [(?a =? 0) && negb (?x =? 0) && negb (?y =? 0)] =>
      destruct ((a =? 0) && negb (x =? 0) && negb (y =? 0)); cbn
  end; reflexivity.
Qed.

(** So does the reset. *)
Lemma reset_window_returns (now : float) (s : AutoTrader) :
  reset_window now s = Returned tt (window_reset now s) (pause now s).
Proof.
  unfold reset_window, window_reset, pause. run_m. destruct s; cbn.
  destruct (now - _ <? 1)%float; reflexivity.
Qed.

(** A price computed means both books had a first level to read. *)
Lemma theoretical_price_levels ap av bp bv theo :
  theoretical_price ap av bp bv = Ok theo ->
  exists bp0 ap0, getitem bp 0 = Ok bp0 /\ getitem ap 0 = Ok ap0.
Proof.
  unfold theoretical_price, weighted_average. run_m.
  destruct (getitem bp 0) as [bp0|]; [|discriminate].
  destruct (getitem bv 0); [|discriminate].
  destruct (int_mul_float _ l0_w); [|discriminate].
  destruct (getitem bp 1); [|discriminate].
  destruct (getitem bv 1); [|discriminate].
  destruct (int_mul_float _ l1_w); [|discriminate].
  destruct (getitem ap 0) as [ap0|]; [|discriminate].
  intros _. now exists bp0, ap0.
Qed.

(** The price update is skipped, raises with the state untouched, or
    assigns the fair value and both targets. *)
Lemma update_theo_cases ap av bp bv (s : AutoTrader) :
  (theo_attempted bp s = false /\
   update_theo ap av bp bv s = Returned tt s []) \/
  (theo_attempted bp s = true /\
   exists e, theoretical_price ap av bp bv = Raise e /\
             update_theo ap av bp bv s = Raised e s []) \/
  (theo_attempted bp s = true /\
   exists theo bp0 ap0,
     theoretical_price ap av bp bv = Ok theo /\
     getitem bp 0 = Ok bp0 /\ getitem ap 0 = Ok ap0 /\
     update_theo ap av bp bv s = Returned tt (retarget theo bp0 ap0 s) []).
Proof.
  unfold update_theo, theo_attempted, retarget. run_m.
  destruct (negb (contains 0 bp) && (action_count s <=? 16)); [|now left].
  right.
  destruct (theoretical_price ap av bp bv) as [theo|e] eqn:Ht.
  - right. split; [reflexivity|].
    destruct (theoretical_price_levels _ _ _ _ _ Ht) as (bp0 & ap0 & Hb & Ha).
    exists theo, bp0, ap0. rewrite Hb, Ha. destruct s; cbn. auto.
  - left. split; [reflexivity|]. exists e. auto.
Qed.

Section BookUpdate.
Variable FUTURE : Z.

(** The handler is the price update on the stamped state followed by
    [after_theo]. *)
Lemma on_order_book_update_message_eq now instrument n ap av bp bv s :
  on_order_book_update_message FUTURE now instrument n ap av bp bv s =
  if instrument =? FUTURE then
    match update_theo ap av bp bv (stamped now s) with
    | Returned _ s1 out1 =>
        match after_theo now s1 with
        | Returned _ s2 out2 => Returned tt s2 (out1 ++ out2)
        | Raised e s2 out2 => Raised e s2 (out1 ++ out2)
        end
    | Raised e s1 out1 => Raised e s1 out1
    end
  else Returned tt s [].
Proof.
  unfold on_order_book_update_message, after_theo, stamped.
  destruct (instrument =? FUTURE); [|reflexivity].
  run_m.
  change (if action_count s =? 0 then set_start_second now s else s)
    with (stamped now s).
  assert (forall (b : bool) f,
            (if b then (fun s1 : AutoTrader => Returned tt (f s1) [])
             else (fun s1 => Returned tt s1 [])) s
            = Returned tt (if b then f s else s) (@nil command)) as E
    by (intros [] ?; reflexivity).
  rewrite E. fold (stamped now s). clear E.
  destruct (update_theo ap av bp bv (stamped now s)) as [[] s1 out1|e s1 out1];
    [|reflexivity].
  cbn [app].
  destruct (action_count s1 <=? 16) eqn:H16.
  - rewrite cancel_stale_returns.
    destruct (action_count (cancel_ask (cancel_bid s1)) <=? 14) eqn:H14.
    + rewrite size_quotes_returns.
      rewrite place_quotes_returns. rewrite ?app_nil_r, ?app_nil_l. reflexivity.
    + destruct (14 <=? action_count (cancel_ask (cancel_bid s1))).
      * rewrite reset_window_returns. rewrite ?app_nil_r. reflexivity.
      * rewrite ?app_nil_r. reflexivity.
  - destruct (action_count s1 <=? 14) eqn:H14.
    + rewrite size_quotes_returns.
      rewrite place_quotes_returns. reflexivity.
    + destruct (14 <=? action_count s1).
      * rewrite reset_window_returns. reflexivity.
      * reflexivity.
Qed.
End BookUpdate.

(** ** Invariants of the trader *)

Lemma cancel_bid_ids s : ids_ok s -> ids_ok (cancel_bid s).
Proof.
  intros []. unfold cancel_bid. destruct (stale _ _ _); [|now constructor].
  destruct s; cbn in *. constructor; cbn; auto; lia.
Qed.

Lemma cancel_ask_ids s : ids_ok s -> ids_ok (cancel_ask s).
Proof.
  intros []. unfold cancel_ask. destruct (stale _ _ _); [|now constructor].
  destruct s; cbn in *. constructor; cbn; auto; lia.
Qed.

Lemma cancel_targets s : targets_ok (cancel_ask (cancel_bid s)).
Proof.
  destruct_trader s. unfold cancel_ask, cancel_bid; cbn.
  destruct (stale bi nbp bp) eqn:Hb; cbn;
    destruct (stale ai nap ap) eqn:Ha; cbn;
    unfold stale, not_in_pair in *; bool_to_prop;
    constructor; cbn; lia.
Qed.

Lemma cancel_count s :
  action_count s <= action_count (cancel_ask (cancel_bid s))
                 <= action_count s + 2.
Proof.
  destruct_trader s. unfold cancel_ask, cancel_bid; cbn.
  destruct (stale bi nbp bp); cbn; destruct (stale ai nap ap); cbn; lia.
Qed.

Lemma sized_ids s : ids_ok s -> ids_ok (sized s).
Proof. intros []. destruct s; now constructor. Qed.

Lemma sized_targets s : targets_ok s -> targets_ok (sized s).
Proof. intros []. destruct s; now constructor. Qed.

Lemma sized_count s : action_count (sized s) = action_count s.
Proof. now destruct s. Qed.

Lemma place_bid_ids s : ids_ok s -> ids_ok (place_bid s).
Proof.
  intros []. unfold place_bid. destruct (quotable _ _ _) eqn:Hq; [|now constructor].
  unfold quotable in Hq. bool_to_prop.
  destruct s; cbn in *. constructor; cbn; try lia.
  - intros x [Hx| ->%elem_of_singleton]%elem_of_union; [|lia].
    apply ids_bids0 in Hx. lia.
  - intros x Hx%ids_asks0. lia.
  - intros x [Hx| ->%elem_of_singleton]%elem_of_union; [now apply ids_disjoint0|].
    intros Hx%ids_asks0. lia.
Qed.

Lemma place_ask_ids s : ids_ok s -> ids_ok (place_ask s).
Proof.
  intros []. unfold place_ask. destruct (quotable _ _ _) eqn:Hq; [|now constructor].
  unfold quotable in Hq. bool_to_prop.
  destruct s; cbn in *. constructor; cbn; try lia.
  - intros x Hx%ids_bids0. lia.
  - intros x [Hx| ->%elem_of_singleton]%elem_of_union; [|lia].
    apply ids_asks0 in Hx. lia.
  - intros x Hx [Ha| ->%elem_of_singleton]%elem_of_union.
    + now apply (ids_disjoint0 x).
    + apply ids_bids0 in Hx. lia.
Qed.

Lemma place_bid_targets s : targets_ok s -> targets_ok (place_bid s).
Proof.
  intros []. unfold place_bid. destruct (quotable _ _ _); [|now constructor].
  destruct s; cbn in *. constructor; cbn; auto.
Qed.

Lemma place_ask_targets s : targets_ok s -> targets_ok (place_ask s).
Proof.
  intros []. unfold place_ask. destruct (quotable _ _ _); [|now constructor].
  destruct s; cbn in *. constructor; cbn; auto.
Qed.

Lemma place_count s :
  action_count s <= action_count (place_ask (place_bid s))
                 <= action_count s + 2.
Proof.
  destruct_trader s. unfold place_ask, place_bid; cbn.
  destruct (quotable bi nbp bv); cbn; destruct (quotable ai nap av); cbn; lia.
Qed.

Lemma window_reset_inv now s :
  ids_ok s -> targets_ok s -> inv (window_reset now s).
Proof.
  intros [] []. destruct s; cbn in *.
  constructor; [cbn; lia| now constructor | now constructor].
Qed.

(** Whatever the targets, the cancellations restore [targets_ok], and
    the counter ends at most at 16 or at 0. *)
Lemma after_theo_inv now (s : AutoTrader) :
  0 <= action_count s <= 16 -> ids_ok s -> inv (final (after_theo now s)).
Proof.
  intros Hc Hi. unfold after_theo. cbv zeta.
  rewrite (proj2 (Z.leb_le (action_count s) 16)) by lia.
  pose proof (cancel_count s) as Hcc.
  pose proof (cancel_targets s) as Ht.
  pose proof (cancel_ask_ids _ (cancel_bid_ids _ Hi)) as Hi'.
  set (s2 := cancel_ask (cancel_bid s)) in *.
  destruct (action_count s2 <=? 14) eqn:H14; bool_to_prop; cbn [final].
  - pose proof (place_count (sized s2)) as Hp. rewrite sized_count in Hp.
    constructor; [lia | |].
    + now apply place_ask_ids, place_bid_ids, sized_ids.
    + now apply place_ask_targets, place_bid_targets, sized_targets.
  - rewrite (proj2 (Z.leb_le 14 (action_count s2))) by lia. cbn [final].
    now apply window_reset_inv.
Qed.

(** ** The other handlers in closed form *)

Lemma on_order_status_message_returns id fill remaining fees s :
  on_order_status_message id fill remaining fees s =
  Returned tt (if remaining =? 0 then closed id s else s) [].
Proof.
  unfold on_order_status_message, closed. run_m.
  destruct (remaining =? 0); [|reflexivity].
  destruct_trader s; cbn.
  destruct (id =? bi); [reflexivity|]. destruct (id =? ai); reflexivity.
Qed.

Lemma on_error_message_cases id msg s :
  on_error_message id msg s =
  match decode msg with
  | Ok _ => on_order_status_message id 0 0 0 s
  | Raise e => Raised e s []
  end.
Proof.
  unfold on_error_message. run_m.
  destruct (decode msg); [|reflexivity].
  now destruct (on_order_status_message id 0 0 0 s).
Qed.

Section Fills.
Variables MINIMUM_BID MAXIMUM_ASK : Z.

Lemma on_order_filled_message_returns id price volume s :
  on_order_filled_message MINIMUM_BID MAXIMUM_ASK id price volume s =
  if bool_decide (id ∈ bids s) then
    Returned tt (hedged volume s)
      [send_hedge_order (order_ids s) ASK (MIN_BID_NEAREST_TICK MINIMUM_BID)
         volume]
  else if bool_decide (id ∈ asks s) then
    Returned tt (hedged (- volume) s)
      [send_hedge_order (order_ids s) BID (MAX_ASK_NEAREST_TICK MAXIMUM_ASK)
         volume]
  else Returned tt s [].
Proof.
  unfold on_order_filled_message, hedged. run_m.
  destruct (bool_decide (id ∈ bids s)).
  - now destruct_trader s.
  - destruct (bool_decide (id ∈ asks s)); [|reflexivity].
    now destruct_trader s.
Qed.

End Fills.

(** ** The invariant holds along every run *)

Lemma init_inv : inv init.
Proof.
  constructor; [cbn; lia | constructor; cbn; try lia
               | constructor; cbn; lia];
    intros x Hx; now apply not_elem_of_empty in Hx.
Qed.

Lemma stamped_frame now s :
  action_count (stamped now s) = action_count s /\
  (ids_ok s -> ids_ok (stamped now s)) /\
  (targets_ok s -> targets_ok (stamped now s)).
Proof.
  unfold stamped. destruct (action_count s =? 0); [|tauto].
  destruct_trader s. cbn. split; [reflexivity|]. split; intros []; now constructor.
Qed.

Lemma retarget_frame t bp0 ap0 s :
  action_count (retarget t bp0 ap0 s) = action_count s /\
  (ids_ok s -> ids_ok (retarget t bp0 ap0 s)).
Proof.
  destruct_trader s. cbn. split; [reflexivity|]. intros []; now constructor.
Qed.

Lemma closed_inv id s : inv s -> inv (closed id s).
Proof.
  intros [Hc [] []]. unfold closed. destruct_trader s; cbn in *.
  assert (forall x, x ∈ bs ∖ {[id]} -> 1 <= x < oi) as Hb
    by (intros x [Hx _]%elem_of_difference; auto).
  assert (forall x, x ∈ as_ ∖ {[id]} -> 1 <= x < oi) as Ha
    by (intros x [Hx _]%elem_of_difference; auto).
  assert (forall x, x ∈ bs ∖ {[id]} -> x ∉ as_ ∖ {[id]}) as Hd
    by (intros x [Hx _]%elem_of_difference [Hx' _]%elem_of_difference;
        now apply (ids_disjoint0 x)).
  destruct (Z.eqb_spec id bi); [|destruct (Z.eqb_spec id ai)]; cbn;
    (constructor; [cbn; lia | constructor; cbn; auto; lia
                  | constructor; cbn; lia]).
Qed.

Section Runs.
Variables FUTURE MINIMUM_BID MAXIMUM_ASK : Z.

Local Abbreviation step := (handle FUTURE MINIMUM_BID MAXIMUM_ASK).
Local Abbreviation runs := (run FUTURE MINIMUM_BID MAXIMUM_ASK).
Local Abbreviation reachable := (reachable FUTURE MINIMUM_BID MAXIMUM_ASK).

Lemma on_order_book_update_message_inv now instrument n ap av bp bv s :
  inv s ->
  inv (final (on_order_book_update_message FUTURE now instrument n
                ap av bp bv s)).
Proof.
  intros Hs. rewrite on_order_book_update_message_eq.
  destruct (instrument =? FUTURE); [|exact Hs].
  destruct Hs as [Hc Hi Ht].
  destruct (stamped_frame now s) as (Ec & Fi & Ft).
  destruct (update_theo_cases ap av bp bv (stamped now s))
    as [[_ ->] | [[_ (e & _ & ->)] | [_ (theo & bp0 & ap0 & _ & _ & _ & ->)]]].
  - pose proof (after_theo_inv now (stamped now s)) as H.
    rewrite Ec in H. specialize (H Hc (Fi Hi)).
    now destruct (after_theo now (stamped now s)).
  - cbn. constructor; [now rewrite Ec | auto | auto].
  - destruct (retarget_frame theo bp0 ap0 (stamped now s)) as (Er & Fr).
    pose proof (after_theo_inv now (retarget theo bp0 ap0 (stamped now s))) as H.
    rewrite Er, Ec in H. specialize (H Hc (Fr (Fi Hi))).
    now destruct (after_theo now _).
Qed.

Lemma on_order_filled_message_inv id price volume s :
  inv s ->
  inv (final (on_order_filled_message MINIMUM_BID MAXIMUM_ASK id price
                volume s)).
Proof.
  intros Hs. rewrite on_order_filled_message_returns.
  assert (forall d, inv (hedged d s)) as Hh.
  { intros d. destruct Hs as [Hc [] []]. destruct_trader s; cbn in *.
    constructor; [cbn; lia | constructor; cbn; try lia | constructor; cbn; lia].
    - intros x Hx%ids_bids0. lia.
    - intros x Hx%ids_asks0. lia.
    - auto. }
  destruct (bool_decide _); [apply Hh|].
  destruct (bool_decide _); [apply Hh|exact Hs].
Qed.

(** Every handler keeps the invariant, also when it raises. *)
Lemma handle_inv ev s : inv s -> inv (final (step ev s)).
Proof.
  intros Hs. destruct ev; cbn [handle].
  - now apply on_order_book_update_message_inv.
  - rewrite on_order_status_message_returns.
    destruct (_ =? 0); [now apply closed_inv | exact Hs].
  - now apply on_order_filled_message_inv.
  - rewrite on_error_message_cases. destruct (decode _); [|exact Hs].
    rewrite on_order_status_message_returns. now apply closed_inv.
  - exact Hs.
Qed.

Lemma run_inv evs s : inv s -> inv (fst (runs s evs)).
Proof.
  revert s. induction evs as [|ev evs IH]; intros s Hs; [exact Hs|].
  cbn [run]. specialize (IH _ (handle_inv ev s Hs)).
  now destruct (runs (final (step ev s)) evs).
Qed.

Lemma reachable_inv s : reachable s -> inv s.
Proof. intros [evs <-]. apply run_inv, init_inv. Qed.

Lemma run_app s evs1 evs2 :
  runs s (evs1 ++ evs2) =
  (fst (runs (fst (runs s evs1)) evs2),
   snd (runs s evs1) ++ snd (runs (fst (runs s evs1)) evs2)).
Proof.
  revert s. induction evs1 as [|ev evs1 IH]; intros s.
  - cbn. now destruct (runs s evs2).
  - cbn [app run]. rewrite IH.
    destruct (runs (final (step ev s)) evs1) as [s1 out1]. cbn.
    now rewrite app_assoc.
Qed.

Lemma reachable_run s evs : reachable s -> reachable (fst (runs s evs)).
Proof.
  intros [evs0 <-]. exists (evs0 ++ evs). now rewrite run_app.
Qed.

End Runs.

(** ** Sizing: the claims *)

Lemma quote_volumes_cases (p : Z) :
  exists b a,
    getitem quote_ladder (Z.of_nat (bisect position_step p)) = Ok (b, a) /\
    0 <= b /\ 0 <= a /\
    quote_volumes p =
    (Z.max 0 (if 0 <=? p then b - p else b),
     Z.max 0 (if 0 <=? p then a else a - Z.abs p)).
Proof.
  unfold quote_volumes.
  pose proof (bisect_position_step p) as Hb.
  destruct Hb;
    match goal with
    | |- context [getitem quote_ladder (Z.of_nat ?i)] =>
        let r := eval vm_compute in (nth i quote_ladder (0, 0)) in
        exists (fst r), (snd r)
    end;
    (split; [reflexivity|]); cbn [nth quote_ladder fst snd];
    (split; [unfold risk_factor; lia|]);
    (split; [unfold risk_factor; lia|]);
    unfold risk_factor;
    destruct (Z.leb_spec 0 p); try lia;
    f_equal;
    match goal with
    | |- (if ?x <? 0 then 0 else ?x) = Z.max 0 ?y =>
        destruct (Z.ltb_spec x 0); lia
    end.
Qed.

(** C2, as the code has it. For a position from -44 to 44 the sizing step
    returns; at 0 it selects index 6, the pair (30, 30), and leaves both
    volumes at 30; otherwise it selects the pair (49, 49) reduced by the
    risk factor, (45, 45), and takes the size of the position off the
    bid when long and off the ask when short, no clamp applying. *)
Theorem sizing_near_flat (s : AutoTrader) :
  -44 <= position s <= 44 ->
  let o := size_quotes s in
  raised o = None /\
  (position s = 0 ->
   position_interval (final o) = 6 /\
   getitem quote_ladder (position_interval (final o)) = Ok (30, 30) /\
   bid_volume (final o) = 30 /\ ask_volume (final o) = 30) /\
  (position s <> 0 ->
   getitem quote_ladder (position_interval (final o))
   = Ok (49 - risk_factor, 49 - risk_factor) /\
   bid_volume (final o) = 45 - Z.max 0 (position s) /\
   ask_volume (final o) = 45 - Z.max 0 (- position s)).
Proof.
  intros Hp. cbv zeta. rewrite size_quotes_returns. cbn [raised final].
  split; [reflexivity|].
  destruct_trader s. cbn in *. unfold quote_volumes.
  pose proof (bisect_position_step p) as Hb.
  destruct Hb; try lia; cbn [nth quote_ladder fst snd]; unfold risk_factor;
    (split; intros Hz; [try lia|try lia]).
  - rewrite (proj2 (Z.leb_gt 0 p)) by lia.
    rewrite (proj2 (Z.ltb_ge (49 - 4) 0)) by lia.
    rewrite (proj2 (Z.ltb_ge (49 - 4 - Z.abs p) 0)) by lia.
    repeat split; lia.
  - subst p. repeat split.
  - rewrite (proj2 (Z.leb_le 0 p)) by lia.
    rewrite (proj2 (Z.ltb_ge (49 - 4 - p) 0)) by lia.
    rewrite (proj2 (Z.ltb_ge (49 - 4) 0)) by lia.
    repeat split; lia.
Qed.


(** ** A book update, case by case *)

Lemma after_theo_returns now s :
  after_theo now s = Returned tt (final (after_theo now s))
                       (sent (after_theo now s)).
Proof.
  unfold after_theo. cbv zeta.
  generalize (if action_count s <=? 16 then cancel_ask (cancel_bid s) else s).
  generalize (if action_count s <=? 16 then cancels s else []).
  intros c2 s2.
  destruct (action_count s2 <=? 14); [|destruct (14 <=? action_count s2)];
    reflexivity.
Qed.

Lemma theo_attempted_stamped now bp s :
  theo_attempted bp (stamped now s) = theo_attempted bp s.
Proof.
  unfold theo_attempted. now destruct (stamped_frame now s) as (-> & _).
Qed.

(** Every book update ends in one of the four ways. *)
Lemma on_order_book_update_message_cases FUTURE now instrument n ap av bp bv s :
  book_update_case FUTURE now instrument ap av bp bv s
    (on_order_book_update_message FUTURE now instrument n ap av bp bv s).
Proof.
  rewrite on_order_book_update_message_eq.
  destruct (Z.eqb_spec instrument FUTURE) as [Hi|Hi]; [|now constructor].
  destruct (update_theo_cases ap av bp bv (stamped now s))
    as [[Hg ->] | [[Hg (e & He & ->)] | [Hg (theo & bp0 & ap0 & Ht & Hb & Ha & ->)]]];
    rewrite theo_attempted_stamped in Hg.
  - rewrite after_theo_returns. cbn [app]. rewrite <- after_theo_returns.
    now constructor.
  - now constructor.
  - rewrite after_theo_returns. cbn [app]. rewrite <- after_theo_returns.
    now apply price_updated.
Qed.

Lemma cancels_are_cancels s : Forall is_cancel (cancels s).
Proof.
  unfold cancels.
  destruct (stale (bid_id s) _ _); destruct (stale (ask_id s) _ _); cbn;
    repeat constructor; eexists; reflexivity.
Qed.

Lemma cancel_is_not_insert c : is_cancel c -> positive_insert c.
Proof. now intros [id ->]. Qed.

Lemma quote_volumes_nonneg p :
  0 <= fst (quote_volumes p) /\ 0 <= snd (quote_volumes p).
Proof.
  destruct (quote_volumes_cases p) as (b & a & _ & _ & _ & ->). cbn. lia.
Qed.

Lemma inserts_positive s :
  Forall positive_insert
    (bid_insert (sized s) ++ ask_insert (place_bid (sized s))).
Proof.
  destruct (quote_volumes_nonneg (position s)) as [Hb Ha].
  apply Forall_app. split.
  - unfold bid_insert. destruct (quotable _ _ _) eqn:Hq; [|constructor].
    unfold quotable in Hq. bool_to_prop. repeat constructor.
    cbn in *. lia.
  - assert (ask_volume (place_bid (sized s)) = snd (quote_volumes (position s)))
      as Ev by (unfold place_bid; now destruct (quotable _ _ _)).
    unfold ask_insert. destruct (quotable _ _ _) eqn:Hq; [|constructor].
    unfold quotable in Hq. bool_to_prop. repeat constructor.
    cbn [positive_insert]. rewrite Ev in *. lia.
Qed.

Lemma after_theo_inserts now s : Forall positive_insert (sent (after_theo now s)).
Proof.
  unfold after_theo. cbv zeta.
  assert (Forall positive_insert
            (if action_count s <=? 16 then cancels s else [])) as H.
  { destruct (_ <=? 16); [|constructor].
    eapply Forall_impl; [apply cancels_are_cancels|].
    apply cancel_is_not_insert. }
  revert H.
  generalize (if action_count s <=? 16 then cancel_ask (cancel_bid s) else s).
  generalize (if action_count s <=? 16 then cancels s else []).
  intros c2 s2 H.
  destruct (action_count s2 <=? 14); [|destruct (14 <=? action_count s2)];
    cbn [sent]; [| |exact H]; apply Forall_app; split; try exact H.
  - apply inserts_positive.
  - unfold pause. destruct (_ <? _)%float; repeat constructor.
Qed.

(** C7. For every position the sizing step returns, leaves neither volume
    negative, and leaves their sum no greater than the sum of the pair
    of the ladder bucket it selected; and every insert a book update
    sends is for a positive volume. *)
Theorem sizing_never_negative FUTURE (s : AutoTrader) :
  (let o := size_quotes s in
   raised o = None /\
   exists b a,
     getitem quote_ladder (position_interval (final o)) = Ok (b, a) /\
     0 <= bid_volume (final o) /\ 0 <= ask_volume (final o) /\
     bid_volume (final o) + ask_volume (final o) <= b + a) /\
  (forall now i n ap av bp bv,
     Forall positive_insert
       (sent (on_order_book_update_message FUTURE now i n ap av bp bv s))).
Proof.
  split.
  - cbv zeta. rewrite size_quotes_returns. cbn [raised final].
    split; [reflexivity|].
    destruct (quote_volumes_cases (position s)) as (b & a & Hg & Hb & Ha & Hq).
    exists b, a. destruct_trader s. cbn in *. rewrite Hq. cbn [fst snd].
    split; [exact Hg|]. destruct (Z.leb_spec 0 p); lia.
  - intros now i n ap av bp bv.
    destruct (on_order_book_update_message_cases FUTURE now i n ap av bp bv s);
      cbn [sent]; try constructor; apply after_theo_inserts.
Qed.

Lemma prices_kept_refl s : prices_kept s s.
Proof. repeat split. Qed.

Lemma prices_kept_trans s1 s2 s3 :
  prices_kept s1 s2 -> prices_kept s2 s3 -> prices_kept s1 s3.
Proof. unfold prices_kept. intuition congruence. Qed.

Lemma cancel_kept s : prices_kept s (cancel_ask (cancel_bid s)).
Proof.
  destruct_trader s. unfold cancel_ask, cancel_bid; cbn.
  destruct (stale bi nbp bp); cbn; destruct (stale ai nap ap); cbn;
    repeat split.
Qed.

Lemma sized_kept s : prices_kept s (sized s).
Proof. destruct_trader s. repeat split. Qed.

Lemma place_kept s : prices_kept s (place_ask (place_bid s)).
Proof.
  destruct_trader s. unfold place_ask, place_bid; cbn.
  destruct (quotable bi nbp bv); cbn; destruct (quotable ai nap av); cbn;
    repeat split.
Qed.

Lemma window_reset_kept now s : prices_kept s (window_reset now s).
Proof. destruct_trader s. repeat split. Qed.

Lemma after_theo_kept now s : prices_kept s (final (after_theo now s)).
Proof.
  unfold after_theo. cbv zeta.
  assert (prices_kept s (if action_count s <=? 16
                         then cancel_ask (cancel_bid s) else s)) as H
    by (destruct (_ <=? 16); [apply cancel_kept | apply prices_kept_refl]).
  revert H. generalize (if action_count s <=? 16
                        then cancel_ask (cancel_bid s) else s).
  intros s2 H.
  destruct (action_count s2 <=? 14); [|destruct (14 <=? action_count s2)];
    cbn [final]; [|exact H|exact H].
  eapply prices_kept_trans; [exact H|].
  eapply prices_kept_trans; [apply sized_kept | apply place_kept].
Qed.

(** ** The fair value: the claims *)

Lemma getitem_0 {A} (x : A) l : getitem (x :: l) 0 = Ok x.
Proof. reflexivity. Qed.

Lemma getitem_1 {A} (x y : A) l : getitem (x :: y :: l) 1 = Ok y.
Proof. reflexivity. Qed.

(** With the four volumes at 0 the denominator is the float 0 and the
    division raises. *)
Lemma theoretical_price_zero_volumes bp0 bp1 bps bvs ap0 ap1 aps avs :
  theoretical_price (ap0 :: ap1 :: aps) (0 :: 0 :: avs)
    (bp0 :: bp1 :: bps) (0 :: 0 :: bvs) = Raise ZeroDivisionError.
Proof.
  unfold theoretical_price, weighted_average.
  rewrite !getitem_0, !getitem_1. run_m.
  rewrite !Z.mul_0_r. reflexivity.
Qed.

(** C1. A FUTURE update that attempts the price while all four volumes
    are 0 does not skip the cycle: the handler raises ZeroDivisionError,
    with only the window start possibly assigned. *)
Theorem zero_denominator_raises FUTURE now n s bp0 bp1 bps bvs ap0 ap1 aps avs :
  contains 0 (bp0 :: bp1 :: bps) = false ->
  action_count s <= 16 ->
  on_order_book_update_message FUTURE now FUTURE n
    (ap0 :: ap1 :: aps) (0 :: 0 :: avs) (bp0 :: bp1 :: bps) (0 :: 0 :: bvs) s
  = Raised ZeroDivisionError (stamped now s) [].
Proof.
  intros Hz Hc.
  assert (theo_attempted (bp0 :: bp1 :: bps) s = true) as Hg.
  { unfold theo_attempted. rewrite Hz. cbn. now apply Z.leb_le. }
  pose proof (theoretical_price_zero_volumes bp0 bp1 bps bvs ap0 ap1 aps avs)
    as Hr.
  destruct (on_order_book_update_message_cases FUTURE now FUTURE n
              (ap0 :: ap1 :: aps) (0 :: 0 :: avs) (bp0 :: bp1 :: bps)
              (0 :: 0 :: bvs) s) as [Hi|e _ _ He|_ Hg'|theo b a _ _ Ht _ _];
    try congruence.
Qed.

Lemma theoretical_price_multiple ap av bp bv theo :
  theoretical_price ap av bp bv = Ok theo ->
  exists avg k,
    weighted_average ap av bp bv = Ok avg /\
    int_of_float (avg / 100)%float = Ok k /\
    theo = k * TICK_SIZE_IN_CENTS.
Proof.
  unfold theoretical_price. run_m.
  destruct (weighted_average ap av bp bv) as [avg|]; [|discriminate].
  change (truediv_int avg 100) with (Ok (avg / 100)%float). cbv beta iota.
  destruct (int_of_float (avg / 100)) as [k|] eqn:Hk; [|discriminate].
  intros [= <-]. now exists avg, k.
Qed.

(** C3, as the code has it. On a FUTURE update with the counter at most
    16: when no reported bid price is 0 and the price computes, the fair
    value becomes [int(avg / 100) * 100], a multiple of the tick, with
    [avg] the binary64 weighted average of the two best levels of each
    side, and the handler returns; when some reported bid price is 0,
    the fair value stays as it was. *)
Theorem fair_value_recomputed FUTURE now n ap av bp bv s :
  action_count s <= 16 ->
  let o := on_order_book_update_message FUTURE now FUTURE n ap av bp bv s in
  (contains 0 bp = false ->
   forall theo, theoretical_price ap av bp bv = Ok theo ->
     raised o = None /\
     theo_price (final o) = theo /\
     theo mod TICK_SIZE_IN_CENTS = 0 /\
     exists avg k,
       weighted_average ap av bp bv = Ok avg /\
       int_of_float (avg / 100)%float = Ok k /\
       theo = k * TICK_SIZE_IN_CENTS) /\
  (contains 0 bp = true -> theo_price (final o) = theo_price s).
Proof.
  intros Hc. cbv zeta.
  destruct (on_order_book_update_message_cases FUTURE now FUTURE n
              ap av bp bv s) as [Hi|e _ Hg He|_ Hg|theo' b a _ Hg Ht _ _];
    [congruence| | |]; unfold theo_attempted in Hg.
  - split.
    + intros Hz theo Ht. congruence.
    + intros Hz. unfold stamped. cbn [final].
      now destruct (action_count s =? 0).
  - split.
    + intros Hz. rewrite Hz in Hg. cbn in Hg. apply Z.leb_gt in Hg. lia.
    + intros _. destruct (after_theo_kept now (stamped now s)) as (-> & _).
      unfold stamped. now destruct (action_count s =? 0).
  - split.
    + intros _ theo Ht'. assert (theo' = theo) as -> by congruence.
      split; [now rewrite after_theo_returns|].
      split; [now destruct (after_theo_kept now
                (retarget theo b a (stamped now s))) as (-> & _)|].
      destruct (theoretical_price_multiple _ _ _ _ _ Ht) as (avg & k & ? & ? & ->).
      split; [apply Z_mod_mult|]. now exists avg, k.
    + intros Hz. rewrite Hz in Hg. discriminate.
Qed.

(** The clock is read at most once in a book update: an update that
    starts with the counter at 0, and reads it for the window start,
    does not reach the reset, which would read it again. *)
Lemma cancel_clock s : current_time (cancel_ask (cancel_bid s)) = current_time s.
Proof.
  destruct_trader s. unfold cancel_ask, cancel_bid; cbn.
  now destruct (stale bi nbp bp); cbn; destruct (stale ai nap ap).
Qed.

Lemma place_clock s : current_time (place_ask (place_bid s)) = current_time s.
Proof.
  destruct_trader s. unfold place_ask, place_bid; cbn.
  now destruct (quotable bi nbp bv); cbn; destruct (quotable ai nap av).
Qed.

Lemma clock_read_once FUTURE now i n ap av bp bv s :
  action_count s = 0 ->
  current_time (final (on_order_book_update_message FUTURE now i n
                         ap av bp bv s)) = current_time s.
Proof.
  intros Hc.
  assert (forall s1, action_count s1 = 0 -> current_time s1 = current_time s ->
            current_time (final (after_theo now s1)) = current_time s) as H.
  { intros s1 E1 E2. unfold after_theo. cbv zeta.
    rewrite (proj2 (Z.leb_le (action_count s1) 16)) by lia.
    pose proof (cancel_count s1).
    rewrite (proj2 (Z.leb_le _ 14)) by lia. cbn [final].
    rewrite place_clock. change (current_time (sized ?x)) with (current_time x).
    now rewrite cancel_clock. }
  assert (current_time (stamped now s) = current_time s) as Es
    by (unfold stamped; now destruct (_ =? 0)).
  destruct (stamped_frame now s) as (Ec & _).
  destruct (on_order_book_update_message_cases FUTURE now i n ap av bp bv s);
    cbn [final]; auto.
  - apply H; [lia | exact Es].
  - apply H; [cbn; lia | exact Es].
Qed.

(** ** Counting the actions *)

Lemma actions_app out1 out2 : actions (out1 ++ out2) = actions out1 + actions out2.
Proof.
  unfold actions. rewrite List.filter_app, length_app. lia.
Qed.

Lemma cancel_counted s :
  action_count (cancel_ask (cancel_bid s))
  = action_count s + actions (cancels s) /\
  (length (cancels s) <= 2)%nat.
Proof.
  destruct_trader s. unfold cancel_ask, cancel_bid, cancels, actions; cbn.
  destruct (stale bi nbp bp); cbn; destruct (stale ai nap ap); cbn;
    split; lia.
Qed.

Lemma place_counted s :
  action_count (place_ask (place_bid s))
  = action_count s + actions (bid_insert s ++ ask_insert (place_bid s)) /\
  (length (bid_insert s ++ ask_insert (place_bid s)) <= 2)%nat /\
  Forall is_insert (bid_insert s ++ ask_insert (place_bid s)).
Proof.
  destruct_trader s.
  unfold place_ask, place_bid, bid_insert, ask_insert, actions; cbn.
  destruct (quotable bi nbp bv); cbn; destruct (quotable ai nap av); cbn;
    (split; [lia|split; [lia|]]); repeat constructor;
    do 4 eexists; reflexivity.
Qed.

Lemma pause_counted now s :
  actions (pause now s) = 0 /\
  (pause now s = [] \/ exists d, pause now s = [sleep d]).
Proof.
  unfold pause. destruct (_ <? _)%float; split; auto. right. eauto.
Qed.

(** ** The throttle: the claims *)
















Section Throttle.
Variables FUTURE MINIMUM_BID MAXIMUM_ASK : Z.

Local Abbreviation runs := (run FUTURE MINIMUM_BID MAXIMUM_ASK).


End Throttle.

(** ** Cancellations: the claims *)

Lemma in_cancels id s :
  send_cancel_order id ∈ cancels s <->
  (id = bid_id s /\ stale (bid_id s) (new_bid_price s) (bid_price s) = true) \/
  (id = ask_id s /\ stale (ask_id s) (new_ask_price s) (ask_price s) = true).
Proof.
  unfold cancels.
  destruct (stale (bid_id s) _ _); destruct (stale (ask_id s) _ _); cbn;
    rewrite ?elem_of_cons, ?elem_of_nil; split; intros H;
    repeat match goal with
    | H : _ \/ _ |- _ => destruct H
    | H : _ /\ _ |- _ => destruct H
    | H : send_cancel_order _ = send_cancel_order _ |- _ => injection H as ->
    end; subst; try discriminate; try contradiction; auto.
Qed.

Lemma not_cancel_in_inserts id s :
  (send_cancel_order id ∉ bid_insert s) /\
  (send_cancel_order id ∉ ask_insert s).
Proof.
  unfold bid_insert, ask_insert.
  destruct (quotable (bid_id s) _ _); destruct (quotable (ask_id s) _ _);
    split; rewrite ?elem_of_cons, ?elem_of_nil; intros H;
    repeat match goal with H : _ \/ _ |- _ => destruct H end;
    try discriminate; contradiction.
Qed.

Lemma not_cancel_in_pause id now s : send_cancel_order id ∉ pause now s.
Proof.
  unfold pause. destruct (_ <? _)%float;
    rewrite ?elem_of_cons, ?elem_of_nil; intros H;
    repeat match goal with H : _ \/ _ |- _ => destruct H end;
    try discriminate; contradiction.
Qed.

Lemma after_theo_cancels now s id :
  action_count s <= 16 ->
  (send_cancel_order id ∈ sent (after_theo now s) <->
   send_cancel_order id ∈ cancels s).
Proof.
  intros Hc. unfold after_theo. cbv zeta.
  rewrite (proj2 (Z.leb_le _ 16)) by lia.
  destruct (_ <=? 14); [|destruct (14 <=? _)]; cbn [sent];
    rewrite ?elem_of_app; [| |tauto].
  - destruct (not_cancel_in_inserts id (sized (cancel_ask (cancel_bid s)))).
    destruct (not_cancel_in_inserts id
                (place_bid (sized (cancel_ask (cancel_bid s))))).
    tauto.
  - pose proof (not_cancel_in_pause id now (cancel_ask (cancel_bid s))).
    tauto.
Qed.

Lemma stale_iff id new_price price :
  stale id new_price price = true <->
  id <> 0 /\ new_price <> price /\ new_price <> 0.
Proof.
  unfold stale, not_in_pair.
  destruct (Z.eqb_spec id 0); destruct (Z.eqb_spec new_price price);
    destruct (Z.eqb_spec new_price 0); cbn; split; intros H;
    try discriminate; try reflexivity; tauto.
Qed.

Lemma stamped_quotes now s :
  bid_id (stamped now s) = bid_id s /\ bid_price (stamped now s) = bid_price s /\
  ask_id (stamped now s) = ask_id s /\ ask_price (stamped now s) = ask_price s /\
  new_bid_price (stamped now s) = new_bid_price s /\
  new_ask_price (stamped now s) = new_ask_price s.
Proof. unfold stamped. destruct (_ =? 0); repeat split. Qed.

Section Cancellations.
Variables FUTURE MINIMUM_BID MAXIMUM_ASK : Z.

Local Abbreviation step := (handle FUTURE MINIMUM_BID MAXIMUM_ASK).
Local Abbreviation runs := (run FUTURE MINIMUM_BID MAXIMUM_ASK).

(** The cancellations of a book update are exactly those of the working
    quotes whose target, as the update leaves it, is neither their price
    nor 0. *)
Lemma book_update_cancels now instrument n ap av bp bv s id :
  inv s ->
  let o := on_order_book_update_message FUTURE now instrument n
             ap av bp bv s in
  (send_cancel_order id ∈ sent o <->
   (id = bid_id s /\
    stale (bid_id s) (new_bid_price (final o)) (bid_price s) = true) \/
   (id = ask_id s /\
    stale (ask_id s) (new_ask_price (final o)) (ask_price s) = true)).
Proof.
  intros [Hc Hi [Htb Hta]]. cbv zeta.
  assert (forall nb na,
            nb = new_bid_price s -> na = new_ask_price s ->
            ~ ((id = bid_id s /\ stale (bid_id s) nb (bid_price s) = true) \/
               (id = ask_id s /\ stale (ask_id s) na (ask_price s) = true)))
    as Hidle.
  { intros nb na -> ->. rewrite !stale_iff. intuition. }
  destruct (stamped_quotes now s) as (E1 & E2 & E3 & E4 & E5 & E6).
  destruct (stamped_frame now s) as (Ec & _).
  destruct (on_order_book_update_message_cases FUTURE now instrument n
              ap av bp bv s) as [Hn|e _ Hg He|_ Hg|theo b a _ Hg Ht _ _].
  - cbn [sent final]. rewrite elem_of_nil.
    specialize (Hidle _ _ eq_refl eq_refl). tauto.
  - cbn [sent final]. rewrite elem_of_nil.
    specialize (Hidle _ _ E5 E6). tauto.
  - rewrite after_theo_cancels by lia. rewrite in_cancels.
    destruct (after_theo_kept now (stamped now s)) as (_ & -> & -> & _).
    now rewrite E1, E2, E3, E4.
  - rewrite after_theo_cancels by (cbn; lia). rewrite in_cancels.
    destruct (after_theo_kept now (retarget theo b a (stamped now s)))
      as (_ & -> & -> & _).
    cbn [retarget].
    change (bid_id (retarget theo b a (stamped now s)))
      with (bid_id (stamped now s)).
    change (ask_id (retarget theo b a (stamped now s)))
      with (ask_id (stamped now s)).
    change (bid_price (retarget theo b a (stamped now s)))
      with (bid_price (stamped now s)).
    change (ask_price (retarget theo b a (stamped now s)))
      with (ask_price (stamped now s)).
    now rewrite E1, E2, E3, E4.
Qed.

End Cancellations.

Section Churn.
Variables FUTURE MINIMUM_BID MAXIMUM_ASK : Z.

Local Abbreviation step := (handle FUTURE MINIMUM_BID MAXIMUM_ASK).
Local Abbreviation runs := (run FUTURE MINIMUM_BID MAXIMUM_ASK).

Lemma steady_no_cancel s us id :
  inv s -> steady FUTURE MINIMUM_BID MAXIMUM_ASK s us ->
  send_cancel_order id ∉ snd (runs s us).
Proof.
  revert s. induction us as [|u us IH]; intros s Hs Hu.
  - cbn. apply not_elem_of_nil.
  - destruct Hu as ((now & i & n & ap & av & bp & bv & ->) & Eb & Ea & Hu).
    cbn [run]. specialize (IH _ (handle_inv FUTURE MINIMUM_BID MAXIMUM_ASK _ s Hs) Hu).
    destruct (runs _ us) as [s' out]. cbn [snd] in *.
    rewrite elem_of_app. intros [H|H]; [|contradiction].
    cbn [handle] in *. apply book_update_cancels in H; [|exact Hs].
    rewrite Eb, Ea, !stale_iff in H.
    destruct Hs as [_ _ [Htb Hta]]. intuition.
Qed.

(** C5, as the code has it. In any state the trader can reach, a book
    update cancels the resting quote of a side if and only if the side
    is working and its target price, as the update leaves it, differs
    from the resting price and is not 0; so a sequence of book updates
    none of which changes a target price sends no cancellation. *)
Theorem cancel_iff_target_moved evs :
  let s := fst (runs init evs) in
  (forall now i n ap av bp bv,
     let o := on_order_book_update_message FUTURE now i n ap av bp bv s in
     (bid_id s <> 0 /\ send_cancel_order (bid_id s) ∈ sent o <->
      bid_id s <> 0 /\ new_bid_price (final o) <> bid_price s /\
      new_bid_price (final o) <> 0) /\
     (ask_id s <> 0 /\ send_cancel_order (ask_id s) ∈ sent o <->
      ask_id s <> 0 /\ new_ask_price (final o) <> ask_price s /\
      new_ask_price (final o) <> 0)) /\
  (forall us, steady FUTURE MINIMUM_BID MAXIMUM_ASK s us ->
     forall id, send_cancel_order id ∉ snd (runs s us)).
Proof.
  cbv zeta.
  pose proof (run_inv FUTURE MINIMUM_BID MAXIMUM_ASK evs init init_inv) as Hs.
  set (s := fst (runs init evs)) in *.
  split.
  - intros now i n ap av bp bv.
    pose proof (fun id => book_update_cancels FUTURE now i n ap av bp bv s id Hs)
      as Hcs. cbv zeta in Hcs.
    destruct Hs as [_ [_ Hb Ha Hd _ _ _] _].
    split; rewrite Hcs, !stale_iff; intuition.
  - intros us Hu id. now apply steady_no_cancel.
Qed.

End Churn.

(** ** Order identities: the claims *)

Lemma seqZ_sorted m n : StronglySorted Z.lt (seqZ m n).
Proof.
  destruct (Z.le_gt_cases n 0) as [Hn|Hn]; [rewrite seqZ_nil by lia; constructor|].
  rewrite <- (Z2Nat.id n) by lia. generalize (Z.to_nat n) as k. clear.
  intros k. revert m. induction k as [|k IH]; intros m.
  - rewrite seqZ_nil by lia. constructor.
  - rewrite seqZ_cons by lia. constructor.
    + replace (Z.pred (Z.of_nat (S k))) with (Z.of_nat k) by lia. apply IH.
    + apply Forall_seqZ. lia.
Qed.

Lemma seqZ_one m : seqZ m 1 = [m].
Proof. rewrite seqZ_cons by lia. now rewrite seqZ_nil by lia. Qed.

Lemma seqZ_two m : seqZ m 2 = [m; m + 1].
Proof.
  rewrite seqZ_cons by lia. change (Z.pred 2) with 1. rewrite seqZ_one.
  f_equal.
Qed.

Lemma issued_ids_app out1 out2 :
  issued_ids (out1 ++ out2) = issued_ids out1 ++ issued_ids out2.
Proof. apply omap_app. Qed.

Lemma cancels_issue_nothing s : issued_ids (cancels s) = [].
Proof.
  unfold cancels. now destruct (stale (bid_id s) _ _); destruct (stale (ask_id s) _ _).
Qed.

Lemma pause_issues_nothing now s : issued_ids (pause now s) = [].
Proof. unfold pause. now destruct (_ <? _)%float. Qed.

Lemma issued_from_nothing s s' out :
  order_ids s' = order_ids s -> issued_ids out = [] -> issued_from s s' out.
Proof.
  intros E1 E2. split; [lia|]. rewrite E2, E1, Z.sub_diag.
  now rewrite seqZ_nil.
Qed.

Lemma issued_from_trans s1 s2 s3 out1 out2 :
  issued_from s1 s2 out1 -> issued_from s2 s3 out2 ->
  issued_from s1 s3 (out1 ++ out2).
Proof.
  intros [L1 E1] [L2 E2]. split; [lia|].
  rewrite issued_ids_app, E1, E2.
  replace (order_ids s3 - order_ids s1)
    with ((order_ids s2 - order_ids s1) + (order_ids s3 - order_ids s2)) by lia.
  rewrite seqZ_app by lia. do 2 f_equal. lia.
Qed.

Lemma place_issued s :
  issued_from s (place_ask (place_bid s))
    (bid_insert s ++ ask_insert (place_bid s)).
Proof.
  destruct_trader s. unfold issued_from, place_ask, place_bid, bid_insert,
    ask_insert; cbn.
  destruct (quotable bi nbp bv); cbn; destruct (quotable ai nap av); cbn;
    (split; [lia|]).
  - replace (oi + 1 + 1 - oi) with 2 by lia. now rewrite seqZ_two.
  - replace (oi + 1 - oi) with 1 by lia. now rewrite seqZ_one.
  - replace (oi + 1 - oi) with 1 by lia. now rewrite seqZ_one.
  - rewrite Z.sub_diag. now rewrite seqZ_nil.
Qed.

Lemma after_theo_issued now s :
  issued_from s (final (after_theo now s)) (sent (after_theo now s)).
Proof.
  unfold after_theo. cbv zeta.
  assert (issued_from s (if action_count s <=? 16
                         then cancel_ask (cancel_bid s) else s)
            (if action_count s <=? 16 then cancels s else [])) as H.
  { destruct (_ <=? 16).
    - apply issued_from_nothing; [|apply cancels_issue_nothing].
      destruct_trader s. unfold cancel_ask, cancel_bid; cbn.
      now destruct (stale bi nbp bp); cbn; destruct (stale ai nap ap).
    - now apply issued_from_nothing. }
  revert H.
  generalize (if action_count s <=? 16 then cancel_ask (cancel_bid s) else s).
  generalize (if action_count s <=? 16 then cancels s else []).
  intros c2 s2 H.
  destruct (action_count s2 <=? 14); [|destruct (14 <=? action_count s2)];
    cbn [final sent].
  - eapply issued_from_trans; [exact H|].
    apply (issued_from_trans (sized s2) (sized s2) _ [] _);
      [now apply issued_from_nothing | apply place_issued].
  - eapply issued_from_trans; [exact H|].
    apply issued_from_nothing; [reflexivity | apply pause_issues_nothing].
  - exact H.
Qed.

Section Identities.
Variables FUTURE MINIMUM_BID MAXIMUM_ASK : Z.

Local Abbreviation step := (handle FUTURE MINIMUM_BID MAXIMUM_ASK).
Local Abbreviation runs := (run FUTURE MINIMUM_BID MAXIMUM_ASK).

Lemma handle_issued ev s :
  issued_from s (final (step ev s)) (sent (step ev s)).
Proof.
  destruct ev as [now i n ap av bp bv|id f r fees|id p v|id msg|i n ap av bp bv];
    cbn [handle].
  - assert (order_ids (stamped now s) = order_ids s) as Es
      by (unfold stamped; now destruct (_ =? 0)).
    destruct (on_order_book_update_message_cases FUTURE now i n ap av bp bv s)
      as [Hn|e _ Hg He|_ Hg|theo b a _ Hg Ht _ _]; cbn [final sent].
    + now apply issued_from_nothing.
    + now apply issued_from_nothing.
    + destruct (after_theo_issued now (stamped now s)) as [L E].
      split; rewrite <- Es; [exact L | exact E].
    + destruct (after_theo_issued now (retarget theo b a (stamped now s)))
        as [L E].
      change (order_ids (retarget theo b a (stamped now s)))
        with (order_ids (stamped now s)) in L, E.
      split; rewrite <- Es; [exact L | exact E].
  - rewrite on_order_status_message_returns. cbn [final sent].
    apply issued_from_nothing; [|reflexivity].
    destruct (r =? 0); [|reflexivity]. unfold closed. cbn.
    destruct (id =? bid_id s); [reflexivity|].
    now destruct (id =? ask_id s).
  - rewrite on_order_filled_message_returns.
    destruct (bool_decide _); [|destruct (bool_decide _)]; cbn [final sent].
    + split; [cbn; lia|]. cbn.
      replace (order_ids s + 1 - order_ids s) with 1 by lia.
      now rewrite seqZ_one.
    + split; [cbn; lia|]. cbn.
      replace (order_ids s + 1 - order_ids s) with 1 by lia.
      now rewrite seqZ_one.
    + now apply issued_from_nothing.
  - rewrite on_error_message_cases.
    destruct (decode msg); [|now apply issued_from_nothing].
    rewrite on_order_status_message_returns. cbn [final sent].
    apply issued_from_nothing; [|reflexivity].
    unfold closed. cbn.
    destruct (id =? bid_id s); [reflexivity|].
    now destruct (id =? ask_id s).
  - now apply issued_from_nothing.
Qed.

Lemma run_issued evs s :
  issued_from s (fst (runs s evs)) (snd (runs s evs)).
Proof.
  revert s. induction evs as [|ev evs IH]; intros s.
  - now apply issued_from_nothing.
  - cbn [run]. specialize (IH (final (step ev s))).
    destruct (runs (final (step ev s)) evs) as [s' out]. cbn [fst snd] in *.
    eapply issued_from_trans; [apply handle_issued | exact IH].
Qed.

(** C6. Over any sequence of events, the identities of the orders the
    trader creates - quotes of both sides and hedges alike - are the
    successive values of the one counter: 1, 2, 3, ... in the order of
    issue, hence strictly increasing and without repetition. *)
Theorem issued_ids_increasing evs :
  let ids := issued_ids (snd (runs init evs)) in
  ids = seqZ 1 (Z.of_nat (length ids)) /\
  StronglySorted Z.lt ids /\
  NoDup ids.
Proof.
  cbv zeta. destruct (run_issued evs init) as [L E].
  change (order_ids init) with 1 in L, E.
  rewrite E. rewrite length_seqZ, Z2Nat.id by lia.
  split; [reflexivity|]. split; [apply seqZ_sorted | apply NoDup_seqZ].
Qed.

End Identities.

(** ** Fills and errors: the claims *)

Section FillsAndErrors.
Variables FUTURE MINIMUM_BID MAXIMUM_ASK : Z.

Local Abbreviation runs := (run FUTURE MINIMUM_BID MAXIMUM_ASK).
Local Abbreviation MIN_TICK := (MIN_BID_NEAREST_TICK MINIMUM_BID).
Local Abbreviation MAX_TICK := (MAX_ASK_NEAREST_TICK MAXIMUM_ASK).

(** The hedge prices are the ends of the tick grid: the lowest multiple
    of the tick above [MINIMUM_BID] and the highest one not above
    [MAXIMUM_ASK]. *)
Lemma hedge_prices_extreme :
  (MIN_TICK mod TICK_SIZE_IN_CENTS = 0 /\
   MINIMUM_BID < MIN_TICK <= MINIMUM_BID + TICK_SIZE_IN_CENTS) /\
  (MAX_TICK mod TICK_SIZE_IN_CENTS = 0 /\
   MAXIMUM_ASK - TICK_SIZE_IN_CENTS < MAX_TICK <= MAXIMUM_ASK).
Proof.
  unfold MIN_BID_NEAREST_TICK, MAX_ASK_NEAREST_TICK, TICK_SIZE_IN_CENTS.
  pose proof (Z.div_mod (MINIMUM_BID + 100) 100 ltac:(lia)).
  pose proof (Z.mod_pos_bound (MINIMUM_BID + 100) 100 ltac:(lia)).
  pose proof (Z.div_mod MAXIMUM_ASK 100 ltac:(lia)).
  pose proof (Z.mod_pos_bound MAXIMUM_ASK 100 ltac:(lia)).
  rewrite !Z_mod_mult. lia.
Qed.

(** C8. In any state the trader can reach, a fill of an order tracked as
    a bid adds the filled volume to the position and sends one hedge:
    a sell of that volume at the lowest tick above [MINIMUM_BID]; a fill
    of an order tracked as an ask subtracts the volume and sends a buy
    of that volume at the highest tick not above [MAXIMUM_ASK]. The hedge
    takes the next identity of the counter. *)
Theorem fill_moves_position_and_hedges evs id price volume :
  let s := fst (runs init evs) in
  let o := on_order_filled_message MINIMUM_BID MAXIMUM_ASK id price volume s in
  (id ∈ bids s ->
   raised o = None /\
   position (final o) = position s + volume /\
   sent o = [send_hedge_order (order_ids s) SELL MIN_TICK volume]) /\
  (id ∈ asks s ->
   raised o = None /\
   position (final o) = position s - volume /\
   sent o = [send_hedge_order (order_ids s) BUY MAX_TICK volume]) /\
  (MIN_TICK mod TICK_SIZE_IN_CENTS = 0 /\
   MINIMUM_BID < MIN_TICK <= MINIMUM_BID + TICK_SIZE_IN_CENTS) /\
  (MAX_TICK mod TICK_SIZE_IN_CENTS = 0 /\
   MAXIMUM_ASK - TICK_SIZE_IN_CENTS < MAX_TICK <= MAXIMUM_ASK).
Proof.
  cbv zeta.
  pose proof (run_inv FUTURE MINIMUM_BID MAXIMUM_ASK evs init init_inv)
    as [_ [_ _ _ _ _ _ Hd] _].
  set (s := fst (runs init evs)) in *.
  rewrite on_order_filled_message_returns.
  split; [|split; [|exact hedge_prices_extreme]]; intros Hin.
  - rewrite bool_decide_eq_true_2 by exact Hin. cbn. auto.
  - rewrite bool_decide_eq_false_2 by (intros Hb; now apply (Hd id)).
    rewrite bool_decide_eq_true_2 by exact Hin. cbn. auto.
Qed.

(** C10. A fill for an identity tracked on neither side changes no field
    and sends nothing. *)
Theorem untracked_fill_is_ignored id price volume s :
  id ∉ bids s -> id ∉ asks s ->
  on_order_filled_message MINIMUM_BID MAXIMUM_ASK id price volume s
  = Returned tt s [].
Proof.
  intros Hb Ha. rewrite on_order_filled_message_returns.
  now rewrite !bool_decide_eq_false_2.
Qed.

End FillsAndErrors.

(** ** The claims on concrete runs *)

(** The raise at the initial state, on a book with prices and no
    volumes. *)
Lemma zero_denominator_at_init :
  on_order_book_update_message FUTURE_0 10 FUTURE_0 1
    asks_1100 zeros bids_1000 zeros init
  = Raised ZeroDivisionError (stamped 10 init) [].
Proof.
  apply (zero_denominator_raises FUTURE_0 10 1 init); [reflexivity | cbn; lia].
Defined.

(** C2, as stated, fails: at position 0 the search returns index 6,
    whose pair is (30, 30), and both volumes are 30. *)
Lemma flat_position_quotes_thirty :
  position init = 0 /\
  raised (size_quotes init) = None /\
  position_interval (final (size_quotes init)) = 6 /\
  getitem quote_ladder 6 = Ok (30, 30) /\
  bid_volume (final (size_quotes init)) = 30 /\
  ask_volume (final (size_quotes init)) = 30 /\
  (bid_volume (final (size_quotes init)),
   ask_volume (final (size_quotes init))) <> (45, 45).
Proof. vm_compute. repeat split; discriminate. Qed.


(** The flat position of the initial state. *)
Lemma sizing_at_init :
  -44 <= position init <= 44 /\
  bid_volume (final (size_quotes init)) = 30 /\
  ask_volume (final (size_quotes init)) = 30.
Proof.
  assert (-44 <= position init <= 44) as H by (cbn; lia).
  split; [exact H|].
  destruct (sizing_near_flat init H) as (_ & Hz & _).
  destruct (Hz eq_refl) as (_ & _ & Hb & Ha). now split.
Defined.

(** C3, as stated, fails: the best bid is 1000 and the counter is 0, the
    price of the book computes to 1000, yet the update leaves the fair
    value at 0, because a deeper bid level reports the price 0. *)
Lemma empty_bid_level_blocks_fair_value :
  let o := on_order_book_update_message FUTURE_0 10 FUTURE_0 1
             asks_1100 tens bids_1000_thin volumes_thin init in
  getitem bids_1000_thin 0 = Ok 1000 /\
  action_count init = 0 /\
  theoretical_price asks_1100 tens bids_1000_thin volumes_thin = Ok 1000 /\
  raised o = None /\
  theo_price (final o) = 0.
Proof. vm_compute. repeat split. Qed.

(** The book around 1050: the average is 1050, the fair value 1000. *)
Lemma fair_value_of_book_1050 :
  let o := on_order_book_update_message FUTURE_0 10 FUTURE_0 1
             asks_1100 tens bids_1000 tens init in
  action_count init <= 16 /\
  contains 0 bids_1000 = false /\
  theoretical_price asks_1100 tens bids_1000 tens = Ok 1000 /\
  raised o = None /\
  theo_price (final o) = 1000 /\
  1000 mod TICK_SIZE_IN_CENTS = 0.
Proof.
  assert (action_count init <= 16) as Hc by (cbn; lia).
  assert (contains 0 bids_1000 = false) as Hz by reflexivity.
  assert (theoretical_price asks_1100 tens bids_1000 tens = Ok 1000) as Ht
    by reflexivity.
  destruct (fair_value_recomputed FUTURE_0 10 1 asks_1100 tens bids_1000 tens
              init Hc) as [H _].
  destruct (H Hz 1000 Ht) as (Hr & Hp & Hm & _).
  repeat split; assumption.
Defined.

(** The average is a float: with all four prices at 1000 it can come out
    just below 1000, and the fair value is then 900. *)
Lemma fair_value_rounds_below :
  weighted_average [1000; 1000] [1; 1] [1000; 1000] [1; 3]
  = Ok 0x1.f3fffffffffffp+9%float /\
  theoretical_price [1000; 1000] [1; 1] [1000; 1000] [1; 3] = Ok 900.
Proof. split; reflexivity. Qed.



(** C5, as stated, fails in its last part: the ask rests at 1100 while
    its target is 0 (the ask side of the book was empty); the next update
    leaves the fair value at 2000, yet it cancels the ask and inserts a
    new one, because the target went from 0 to 2100. *)
Lemma same_fair_value_still_cancels :
  let s := fst (trader_run init [book_1050 10; book_2050_no_asks 11]) in
  let o := trader_handle (book_2050 12) s in
  theo_price s = 2000 /\
  theo_price (final o) = 2000 /\
  ask_id s = 2 /\ ask_price s = 1100 /\
  new_ask_price s = 0 /\ new_ask_price (final o) = 2100 /\
  sent o = [send_cancel_order 2;
            send_insert_order 4 SELL 2100 30 GOOD_FOR_DAY].
Proof. vm_compute. repeat split. Qed.

(** The same book again, twice: the targets stay, nothing is
    cancelled. *)
Lemma repeated_book_sends_no_cancel :
  let s := fst (trader_run init [book_1050 10]) in
  let us := [book_1050 10.5; book_1050 11] in
  steady FUTURE_0 MINIMUM_BID_1 MAXIMUM_ASK_31 s us /\
  (send_cancel_order 1 ∉ snd (trader_run s us)) /\
  (send_cancel_order 2 ∉ snd (trader_run s us)).
Proof.
  cbv zeta.
  assert (steady FUTURE_0 MINIMUM_BID_1 MAXIMUM_ASK_31
            (fst (trader_run init [book_1050 10]))
            [book_1050 10.5; book_1050 11]) as Hs.
  { cbn [steady].
    split; [do 7 eexists; reflexivity|].
    split; [vm_compute; reflexivity|].
    split; [vm_compute; reflexivity|].
    split; [do 7 eexists; reflexivity|].
    split; [vm_compute; reflexivity|].
    split; [vm_compute; reflexivity|exact I]. }
  destruct (cancel_iff_target_moved FUTURE_0 MINIMUM_BID_1 MAXIMUM_ASK_31
              [book_1050 10]) as [_ H].
  split; [exact Hs|]. split; apply (H _ Hs).
Defined.

(** A fill of 10 on the working bid 1: position 10, a sell hedge of 10
    at the tick 100, with identity 3. *)
Lemma bid_fill_of_ten :
  let s := fst (trader_run init [book_1050 10]) in
  let o := on_order_filled_message MINIMUM_BID_1 MAXIMUM_ASK_31 1 900 10 s in
  1 ∈ bids s /\
  position s = 0 /\
  position (final o) = 10 /\
  sent o = [send_hedge_order 3 SELL 100 10].
Proof.
  cbv zeta.
  assert (1 ∈ bids (fst (trader_run init [book_1050 10]))) as Hin
    by (apply (bool_decide_unpack _); vm_compute; exact I).
  destruct (fill_moves_position_and_hedges FUTURE_0 MINIMUM_BID_1
              MAXIMUM_ASK_31 [book_1050 10] 1 900 10) as (H & _ & _).
  destruct (H Hin) as (_ & Hp & Hs).
  split; [exact Hin|]. split; [vm_compute; reflexivity|].
  split; [exact Hp | exact Hs].
Defined.

(** A fill for identity 3, tracked on neither side of the initial
    state. *)
Lemma hedge_fill_is_ignored :
  on_order_filled_message MINIMUM_BID_1 MAXIMUM_ASK_31 3 100 10 init
  = Returned tt init [].
Proof.
  apply untracked_fill_is_ignored; apply not_elem_of_empty.
Defined.

(** C9 fails on a message that is not UTF-8: with bid 1 working, the
    error for it raises out of the handler before the status update,
    and the bid stays working and tracked, where the status message
    with remaining volume 0 resets it. *)
Theorem undecodable_error_raises :
  let s := fst (trader_run init [book_1050 10]) in
  let o := on_error_message 1 [Byte.xff] s in
  bid_id s = 1 /\
  raised o = Some UnicodeDecodeError /\
  bid_id (final o) = 1 /\
  bool_decide (1 ∈ bids (final o)) = true /\
  bid_id (final (on_order_status_message 1 0 0 0 s)) = 0 /\
  bool_decide (1 ∈ bids (final (on_order_status_message 1 0 0 0 s))) = false.
Proof. vm_compute. repeat split. Qed.

(** * Further properties *)

(** ** What a book update sends *)

(** Every command after the price update is a cancellation, a sleep, or
    an insert at the side's target for the side's sized volume, neither
    of them 0. *)
Lemma after_theo_commands now s c :
  c ∈ sent (after_theo now s) ->
  is_cancel c \/ is_sleep c \/
  (exists id, c = send_insert_order id BUY (new_bid_price s)
                    (fst (quote_volumes (position s))) GOOD_FOR_DAY /\
              new_bid_price s <> 0 /\ fst (quote_volumes (position s)) <> 0) \/
  (exists id, c = send_insert_order id SELL (new_ask_price s)
                    (snd (quote_volumes (position s))) GOOD_FOR_DAY /\
              new_ask_price s <> 0 /\ snd (quote_volumes (position s)) <> 0).
Proof.
  unfold after_theo. cbv zeta.
  assert (Forall is_cancel (if action_count s <=? 16 then cancels s else []))
    as Hc by (destruct (_ <=? 16); [apply cancels_are_cancels | constructor]).
  assert (prices_kept s (if action_count s <=? 16
                         then cancel_ask (cancel_bid s) else s)) as Hk
    by (destruct (_ <=? 16); [apply cancel_kept | apply prices_kept_refl]).
  revert Hc Hk.
  generalize (if action_count s <=? 16 then cancel_ask (cancel_bid s) else s).
  generalize (if action_count s <=? 16 then cancels s else []).
  intros c2 s2 Hc (_ & Eb & Ea & _ & Ep).
  rewrite Forall_forall in Hc.
  destruct (action_count s2 <=? 14); [|destruct (14 <=? action_count s2)];
    cbn [sent]; rewrite ?elem_of_app; intros H.
  - destruct H as [H|[H|H]]; [left; auto| |].
    + right; right; left. unfold bid_insert in H.
      destruct (quotable _ _ _) eqn:Hq; [|now apply elem_of_nil in H].
      apply list_elem_of_singleton in H. subst c.
      unfold quotable in Hq. bool_to_prop. cbn in *.
      rewrite Eb, Ep in *. eauto.
    + right; right; right.
      assert (ask_volume (place_bid (sized s2)) = snd (quote_volumes (position s2))
              /\ new_ask_price (place_bid (sized s2)) = new_ask_price s2
              /\ ask_id (place_bid (sized s2)) = ask_id s2) as (Ev & En & Ei)
        by (unfold place_bid; now destruct (quotable _ _ _)).
      unfold ask_insert in H.
      destruct (quotable _ _ _) eqn:Hq; [|now apply elem_of_nil in H].
      apply list_elem_of_singleton in H. subst c.
      unfold quotable in Hq. bool_to_prop.
      rewrite Ev, En, Ea, Ep in *. eauto.
  - destruct H as [H|H]; [left; auto|].
    right; left. unfold pause in H.
    destruct (_ <? _)%float; [|now apply elem_of_nil in H].
    apply list_elem_of_singleton in H. subst c. eexists; reflexivity.
  - left; auto.
Qed.

Lemma stamped_position now s : position (stamped now s) = position s.
Proof. unfold stamped. now destruct (_ =? 0). Qed.

(** The same for the whole handler, which sends nothing when it skips
    the instrument or raises. *)
Lemma book_update_commands FUTURE now i n ap av bp bv s c :
  let o := on_order_book_update_message FUTURE now i n ap av bp bv s in
  c ∈ sent o ->
  is_cancel c \/ is_sleep c \/
  (exists id, c = send_insert_order id BUY (new_bid_price (final o))
                    (fst (quote_volumes (position s))) GOOD_FOR_DAY /\
              new_bid_price (final o) <> 0 /\
              fst (quote_volumes (position s)) <> 0) \/
  (exists id, c = send_insert_order id SELL (new_ask_price (final o))
                    (snd (quote_volumes (position s))) GOOD_FOR_DAY /\
              new_ask_price (final o) <> 0 /\
              snd (quote_volumes (position s)) <> 0).
Proof.
  cbv zeta.
  destruct (on_order_book_update_message_cases FUTURE now i n ap av bp bv s)
    as [Hn|e _ Hg He|_ Hg|theo b a _ Hg Ht _ _]; cbn [sent final];
    try (intros H; now apply elem_of_nil in H).
  - intros H. apply after_theo_commands in H.
    destruct (after_theo_kept now (stamped now s)) as (_ & -> & -> & _).
    now rewrite stamped_position in H.
  - intros H. apply after_theo_commands in H.
    destruct (after_theo_kept now (retarget theo b a (stamped now s)))
      as (_ & -> & -> & _).
    change (position (retarget theo b a (stamped now s)))
      with (position (stamped now s)) in H.
    now rewrite stamped_position in H.
Qed.

(** ** Prices on the grid *)

Lemma init_prices_ok : prices_ok init.
Proof. constructor; cbn; auto. Qed.

Lemma prices_kept_ok s s' : prices_kept s s' -> prices_ok s -> prices_ok s'.
Proof.
  intros (Et & Eb & Ea & _) [H1 H2 H3].
  constructor; rewrite ?Et, ?Eb, ?Ea; assumption.
Qed.

Lemma stamped_prices_ok now s : prices_ok s -> prices_ok (stamped now s).
Proof.
  intros Hs. unfold stamped. destruct (_ =? 0); [|exact Hs].
  destruct Hs. now constructor.
Qed.

Lemma retarget_prices_ok theo b a s :
  theo mod TICK_SIZE_IN_CENTS = 0 -> prices_ok (retarget theo b a s).
Proof.
  intros Hm. constructor; cbn; [exact Hm| |].
  - destruct (negb (b =? 0)); auto.
  - destruct (negb (a =? 0)); auto.
Qed.

Lemma closed_fields id s :
  prices_kept s (closed id s) /\
  order_ids (closed id s) = order_ids s /\
  action_count (closed id s) = action_count s.
Proof.
  unfold closed. cbn.
  destruct (id =? bid_id s); [|destruct (id =? ask_id s)]; repeat split.
Qed.

Section MoreRuns.
Variables FUTURE MINIMUM_BID MAXIMUM_ASK : Z.

Local Abbreviation step := (handle FUTURE MINIMUM_BID MAXIMUM_ASK).
Local Abbreviation runs := (run FUTURE MINIMUM_BID MAXIMUM_ASK).

Lemma book_update_prices_ok now i n ap av bp bv s :
  prices_ok s ->
  prices_ok (final (on_order_book_update_message FUTURE now i n
                      ap av bp bv s)).
Proof.
  intros Hs.
  destruct (on_order_book_update_message_cases FUTURE now i n ap av bp bv s)
    as [Hn|e _ Hg He|_ Hg|theo b a _ Hg Ht _ _]; cbn [final].
  - exact Hs.
  - now apply stamped_prices_ok.
  - eapply prices_kept_ok; [apply after_theo_kept|].
    now apply stamped_prices_ok.
  - eapply prices_kept_ok; [apply after_theo_kept|].
    apply retarget_prices_ok.
    destruct (theoretical_price_multiple _ _ _ _ _ Ht) as (avg & k & _ & _ & ->).
    apply Z_mod_mult.
Qed.

Lemma handle_prices_ok ev s : prices_ok s -> prices_ok (final (step ev s)).
Proof.
  intros Hs. destruct ev; cbn [handle].
  - now apply book_update_prices_ok.
  - rewrite on_order_status_message_returns. cbn [final].
    destruct (_ =? 0); [|exact Hs].
    eapply prices_kept_ok; [apply closed_fields | exact Hs].
  - rewrite on_order_filled_message_returns.
    destruct (bool_decide _); [|destruct (bool_decide _)]; cbn [final];
      try exact Hs; destruct Hs; now constructor.
  - rewrite on_error_message_cases. destruct (decode _); [|exact Hs].
    rewrite on_order_status_message_returns. cbn [final].
    eapply prices_kept_ok; [apply closed_fields | exact Hs].
  - exact Hs.
Qed.

Lemma run_prices_ok evs s : prices_ok s -> prices_ok (fst (runs s evs)).
Proof.
  revert s. induction evs as [|ev evs IH]; intros s Hs; [exact Hs|].
  cbn [run]. specialize (IH _ (handle_prices_ok ev s Hs)).
  now destruct (runs (final (step ev s)) evs).
Qed.

(** X1. In any state the trader can reach, every quote a book update
    inserts is on the tick grid, a bid exactly one tick below and an ask
    exactly one tick above the fair value the update leaves. *)
Theorem quotes_bracket_fair_value evs now i n ap av bp bv :
  let s := fst (runs init evs) in
  let o := on_order_book_update_message FUTURE now i n ap av bp bv s in
  theo_price (final o) mod TICK_SIZE_IN_CENTS = 0 /\
  Forall (quoted_around (theo_price (final o))) (sent o).
Proof.
  cbv zeta.
  pose proof (run_prices_ok evs init init_prices_ok) as Hs.
  set (s := fst (runs init evs)) in *.
  destruct (book_update_prices_ok now i n ap av bp bv s Hs) as [Hm Hb Ha].
  split; [exact Hm|]. apply Forall_forall. intros c Hc.
  apply book_update_commands in Hc. cbv zeta in Hc.
  destruct Hc as [[id ->]|[[d ->]|[(id & -> & Hn & _)|(id & -> & Hn & _)]]];
    cbn; auto; tauto.
Qed.

End MoreRuns.

(** ** The ladder and the position limit *)

Lemma quote_volumes_within_limit p :
  - POSITION_LIMIT <= p <= POSITION_LIMIT ->
  p + fst (quote_volumes p) <= POSITION_LIMIT /\
  - POSITION_LIMIT <= p - snd (quote_volumes p).
Proof.
  unfold POSITION_LIMIT. intros Hp. unfold quote_volumes.
  pose proof (bisect_position_step p) as Hb.
  destruct Hb; cbn [nth quote_ladder fst snd]; unfold risk_factor;
    destruct (Z.leb_spec 0 p); try lia;
    repeat match goal with
    | |- context [if ?x <? 0 then _ else _] => destruct (Z.ltb_spec x 0)
    end; cbn [fst snd]; lia.
Qed.

(** X2. From a position within the limit of 100 lots, no quote a book
    update inserts can take the position past the limit when it fills in
    full: position + bid volume <= 100 and position - ask volume >= -100. *)
Theorem quotes_respect_position_limit FUTURE now i n ap av bp bv s :
  - POSITION_LIMIT <= position s <= POSITION_LIMIT ->
  Forall (within_limit (position s))
    (sent (on_order_book_update_message FUTURE now i n ap av bp bv s)).
Proof.
  intros Hp. destruct (quote_volumes_within_limit _ Hp) as [Hb Ha].
  apply Forall_forall. intros c Hc.
  apply book_update_commands in Hc. cbv zeta in Hc.
  destruct Hc as [[id ->]|[[d ->]|[(id & -> & _)|(id & -> & _)]]]; cbn; auto.
Qed.

(** ** The position and the hedges *)

Lemma net_hedged_app out1 out2 :
  net_hedged (out1 ++ out2) = net_hedged out1 + net_hedged out2.
Proof.
  induction out1 as [|c out1 IH]; cbn; [reflexivity|].
  unfold net_hedged in *. cbn. rewrite IH. lia.
Qed.

Lemma book_update_hedges_nothing FUTURE now i n ap av bp bv s :
  net_hedged (sent (on_order_book_update_message FUTURE now i n
                      ap av bp bv s)) = 0.
Proof.
  pose proof (fun c => book_update_commands FUTURE now i n ap av bp bv s c) as H.
  cbv zeta in H. revert H.
  generalize (sent (on_order_book_update_message FUTURE now i n ap av bp bv s)).
  induction l as [|c l IH]; intros H; [reflexivity|].
  change (net_hedged (c :: l)) with (hedge_delta c + net_hedged l).
  rewrite IH by (intros c' Hc'; apply H; now right).
  destruct (H c) as [[id ->]|[[d ->]|[(id & -> & _)|(id & -> & _)]]];
    [now left|reflexivity..].
Qed.

Lemma book_update_position FUTURE now i n ap av bp bv s :
  position (final (on_order_book_update_message FUTURE now i n
                     ap av bp bv s)) = position s.
Proof.
  destruct (on_order_book_update_message_cases FUTURE now i n ap av bp bv s)
    as [Hn|e _ Hg He|_ Hg|theo b a _ Hg Ht _ _]; cbn [final].
  - reflexivity.
  - apply stamped_position.
  - destruct (after_theo_kept now (stamped now s)) as (_ & _ & _ & _ & ->).
    apply stamped_position.
  - destruct (after_theo_kept now (retarget theo b a (stamped now s)))
      as (_ & _ & _ & _ & ->).
    apply stamped_position.
Qed.

Section Hedging.
Variables FUTURE MINIMUM_BID MAXIMUM_ASK : Z.

Local Abbreviation step := (handle FUTURE MINIMUM_BID MAXIMUM_ASK).
Local Abbreviation runs := (run FUTURE MINIMUM_BID MAXIMUM_ASK).

Lemma handle_position ev s :
  position (final (step ev s)) = position s + net_hedged (sent (step ev s)).
Proof.
  destruct ev; cbn [handle].
  - rewrite book_update_hedges_nothing, book_update_position. lia.
  - rewrite on_order_status_message_returns. cbn [final sent net_hedged fold_right].
    destruct (_ =? 0); [|lia].
    destruct (closed_fields client_order_id s) as ((_ & _ & _ & _ & ->) & _). lia.
  - rewrite on_order_filled_message_returns.
    destruct (bool_decide _); [|destruct (bool_decide _)]; cbn; lia.
  - rewrite on_error_message_cases. destruct (decode _); [|cbn; lia].
    rewrite on_order_status_message_returns. change (0 =? 0) with true.
    cbn [final sent net_hedged fold_right].
    destruct (closed_fields client_order_id s) as ((_ & _ & _ & _ & ->) & _). lia.
  - cbn. lia.
Qed.

(** X3. After any sequence of events the position is the net volume of
    the hedges sent: what the sell hedges carry minus what the buy
    hedges carry. Only fills of tracked quotes move the position, and
    each one is hedged for its full volume. *)
Theorem position_is_net_hedged evs :
  position (fst (runs init evs)) = net_hedged (snd (runs init evs)).
Proof.
  assert (forall s, position (fst (runs s evs))
                    = position s + net_hedged (snd (runs s evs))) as H.
  { induction evs as [|ev evs IH]; intros s; [cbn; lia|].
    cbn [run]. specialize (IH (final (step ev s))).
    destruct (runs (final (step ev s)) evs) as [s' out]. cbn [fst snd] in *.
    rewrite net_hedged_app, IH, handle_position. lia. }
  rewrite H. reflexivity.
Qed.

End Hedging.

(** ** The counter and the commands *)

(** What [after_theo] does in full: cancellations first, at most two;
    then either the inserts, at most two, counted together with the
    cancellations, or the wait and the reset. *)
Lemma after_theo_shape now s :
  exists cs rest,
    sent (after_theo now s) = cs ++ rest /\
    Forall is_cancel cs /\ (length cs <= 2)%nat /\
    ((Forall is_insert rest /\ (length rest <= 2)%nat /\
      action_count (final (after_theo now s))
      = action_count s + actions (cs ++ rest)) \/
     ((rest = [] \/ exists d, rest = [sleep d]) /\
      action_count (final (after_theo now s)) = 0 /\
      15 <= action_count s + actions (cs ++ rest))).
Proof.
  unfold after_theo. cbv zeta.
  assert (let s2 := if action_count s <=? 16
                    then cancel_ask (cancel_bid s) else s in
          let c2 := if action_count s <=? 16 then cancels s else [] in
          action_count s2 = action_count s + actions c2 /\
          (length c2 <= 2)%nat /\ Forall is_cancel c2) as H.
  { cbv zeta. destruct (_ <=? 16).
    - destruct (cancel_counted s) as [-> ?].
      repeat split; auto using cancels_are_cancels.
    - unfold actions; cbn. repeat split; auto; lia. }
  cbv zeta in H. revert H.
  generalize (if action_count s <=? 16 then cancel_ask (cancel_bid s) else s).
  generalize (if action_count s <=? 16 then cancels s else []).
  intros c2 s2 (Ec & Hl & Hc).
  destruct (Z.leb_spec (action_count s2) 14);
    [|destruct (Z.leb_spec 14 (action_count s2)); [|lia]]; cbn [final sent].
  - exists c2, (bid_insert (sized s2) ++ ask_insert (place_bid (sized s2))).
    destruct (place_counted (sized s2)) as (Ep & Hl' & Hi).
    change (action_count (sized s2)) with (action_count s2) in Ep.
    pose proof (Zle_0_nat (length (List.filter is_action c2))).
    unfold actions in *.
    repeat split; auto. left. repeat split; auto.
    rewrite Ep, Ec, !List.filter_app, !length_app. lia.
  - exists c2, (pause now s2).
    destruct (pause_counted now s2) as (Ea & Hp).
    repeat split; auto. right. repeat split; auto.
    rewrite actions_app, Ea. lia.
Qed.

Lemma actions_nil : actions [] = 0.
Proof. reflexivity. Qed.

Lemma stamped_count now s : action_count (stamped now s) = action_count s.
Proof. unfold stamped. now destruct (_ =? 0). Qed.

(** The same for the handler; skipping the instrument or raising sends
    nothing and leaves the counter. *)
Lemma book_update_shape FUTURE now i n ap av bp bv s :
  let o := on_order_book_update_message FUTURE now i n ap av bp bv s in
  exists cs rest,
    sent o = cs ++ rest /\
    Forall is_cancel cs /\ (length cs <= 2)%nat /\
    ((Forall is_insert rest /\ (length rest <= 2)%nat /\
      action_count (final o) = action_count s + actions (cs ++ rest)) \/
     ((rest = [] \/ exists d, rest = [sleep d]) /\
      action_count (final o) = 0 /\
      15 <= action_count s + actions (cs ++ rest))).
Proof.
  cbv zeta.
  destruct (on_order_book_update_message_cases FUTURE now i n ap av bp bv s)
    as [Hn|e _ Hg He|_ Hg|theo b a _ Hg Ht _ _]; cbn [sent final].
  - exists [], []. cbn [app]. rewrite actions_nil.
    repeat split; auto. left. repeat split; auto; lia.
  - exists [], []. cbn [app]. rewrite actions_nil, stamped_count.
    repeat split; auto. left. repeat split; auto; lia.
  - destruct (after_theo_shape now (stamped now s)) as (cs & rest & H).
    rewrite stamped_count in H. now exists cs, rest.
  - destruct (after_theo_shape now (retarget theo b a (stamped now s)))
      as (cs & rest & H).
    change (action_count (retarget theo b a (stamped now s)))
      with (action_count (stamped now s)) in H.
    rewrite stamped_count in H. now exists cs, rest.
Qed.

(** X4. A book update sends its cancellations first, at most two, and
    then either inserts, at most two, or a single sleep, never both: at
    most four commands in all. *)
Theorem book_update_sends_cancels_then_quotes_or_sleep
    FUTURE now i n ap av bp bv s :
  let o := on_order_book_update_message FUTURE now i n ap av bp bv s in
  exists cs rest,
    sent o = cs ++ rest /\
    Forall is_cancel cs /\ (length cs <= 2)%nat /\
    ((Forall is_insert rest /\ (length rest <= 2)%nat) \/
     exists d, rest = [sleep d]).
Proof.
  cbv zeta.
  destruct (book_update_shape FUTURE now i n ap av bp bv s)
    as (cs & rest & E & Hc & Hl & [(Hi & Hl' & _)|(Hr & _)]);
    exists cs, rest; repeat split; auto.
  destruct Hr as [->|Hd]; [left|now right].
  split; [constructor | cbn; lia].
Qed.

(** X5. The counter counts the actions. Whatever the event and the
    state, either the counter grows by exactly the number of
    cancellations and inserts the handler sent - hedges and sleeps do
    not count - or the handler was a book update that found the budget
    used up (15 or more with its own cancellations) and left the counter
    at 0. *)
Theorem counter_counts_actions FUTURE MINIMUM_BID MAXIMUM_ASK ev s :
  let o := handle FUTURE MINIMUM_BID MAXIMUM_ASK ev s in
  action_count (final o) = action_count s + actions (sent o) \/
  (action_count (final o) = 0 /\ 15 <= action_count s + actions (sent o) /\
   exists now i n ap av bp bv, ev = OrderBookUpdate now i n ap av bp bv).
Proof.
  cbv zeta. destruct ev as [now i n ap av bp bv|id f r fees|id p v|id msg|
                            i n ap av bp bv]; cbn [handle].
  - destruct (book_update_shape FUTURE now i n ap av bp bv s)
      as (cs & rest & -> & _ & _ & [(_ & _ & E)|(_ & E & Hb)]);
      [left; exact E|right].
    repeat split; auto. now exists now, i, n, ap, av, bp, bv.
  - left. rewrite on_order_status_message_returns. cbn [final sent].
    rewrite actions_nil. destruct (r =? 0); [|lia].
    destruct (closed_fields id s) as (_ & _ & ->). lia.
  - left. rewrite on_order_filled_message_returns. unfold actions.
    destruct (bool_decide _); [|destruct (bool_decide _)]; cbn; lia.
  - left. rewrite on_error_message_cases.
    destruct (decode _); [|unfold actions; cbn; lia].
    rewrite on_order_status_message_returns. change (0 =? 0) with true.
    cbn [final sent]. rewrite actions_nil.
    destruct (closed_fields id s) as (_ & _ & ->). lia.
  - left. unfold actions. cbn. lia.
Qed.

(** X6. With the counter at 12 or less a book update never waits: it
    sends no sleep, and the counter does not go down. *)
Theorem no_wait_below_budget FUTURE now i n ap av bp bv s :
  action_count s <= 12 ->
  let o := on_order_book_update_message FUTURE now i n ap av bp bv s in
  Forall (fun c => ~ is_sleep c) (sent o) /\
  action_count s <= action_count (final o) <= action_count s + 4.
Proof.
  intros Hc. cbv zeta.
  destruct (book_update_shape FUTURE now i n ap av bp bv s)
    as (cs & rest & -> & Hcs & Hl & [(Hi & Hl' & E)|(Hr & _ & Hb)]).
  - split.
    + apply Forall_app. split.
      * eapply Forall_impl; [exact Hcs|]. intros c [id ->] [d Hd]. discriminate.
      * eapply Forall_impl; [exact Hi|].
        intros c (id & sd & p & v & ->) [d Hd]. discriminate.
    + rewrite E. unfold actions.
      pose proof (List.filter_length_le is_action (cs ++ rest)).
      rewrite length_app in *. lia.
  - exfalso. unfold actions in Hb.
    pose proof (List.filter_length_le is_action cs) as Hf.
    rewrite List.filter_app, length_app in Hb.
    destruct Hr as [->|[d ->]]; cbn in Hb; lia.
Qed.

(** ** Tracked identities *)

Lemma init_tracked : working_tracked init.
Proof. constructor; cbn; intros H; now destruct H. Qed.

Lemma cancel_tracked s :
  working_tracked s -> working_tracked (cancel_ask (cancel_bid s)).
Proof.
  intros [Hb Ha]. destruct_trader s. unfold cancel_ask, cancel_bid; cbn in *.
  destruct (stale bi nbp bp); cbn; destruct (stale ai nap ap); cbn;
    constructor; cbn; auto; intros H; now destruct H.
Qed.

Lemma place_tracked s :
  working_tracked s -> working_tracked (place_ask (place_bid s)).
Proof.
  intros [Hb Ha]. destruct_trader s. unfold place_ask, place_bid; cbn in *.
  destruct (quotable bi nbp bv); cbn; destruct (quotable ai nap av); cbn;
    constructor; cbn; auto; intros _;
    apply elem_of_union; right; now apply elem_of_singleton.
Qed.

Lemma after_theo_tracked now s :
  working_tracked s -> working_tracked (final (after_theo now s)).
Proof.
  intros Hs. unfold after_theo. cbv zeta.
  assert (working_tracked (if action_count s <=? 16
                           then cancel_ask (cancel_bid s) else s)) as H
    by (destruct (_ <=? 16); [now apply cancel_tracked | exact Hs]).
  revert H.
  generalize (if action_count s <=? 16 then cancel_ask (cancel_bid s) else s).
  intros s2 H.
  destruct (action_count s2 <=? 14); [|destruct (14 <=? action_count s2)];
    cbn [final]; [| |exact H].
  - apply place_tracked. destruct H. now constructor.
  - destruct H. now constructor.
Qed.

Lemma closed_tracked id s :
  inv s -> working_tracked s -> working_tracked (closed id s).
Proof.
  intros [_ [_ _ _ Hd _ _ _] _] [Hb Ha]. unfold closed.
  destruct_trader s; cbn in *.
  destruct (Z.eqb_spec id bi); [|destruct (Z.eqb_spec id ai)]; cbn;
    constructor; cbn; intros H; try (now destruct H);
    apply elem_of_difference; rewrite elem_of_singleton; split; auto.
  subst id. intros E. apply (Hd ltac:(congruence)). congruence.
Qed.

Section Tracking.
Variables FUTURE MINIMUM_BID MAXIMUM_ASK : Z.

Local Abbreviation step := (handle FUTURE MINIMUM_BID MAXIMUM_ASK).
Local Abbreviation runs := (run FUTURE MINIMUM_BID MAXIMUM_ASK).

Lemma handle_tracked ev s :
  inv s -> working_tracked s -> working_tracked (final (step ev s)).
Proof.
  intros Hi Hs. destruct ev as [now i n ap av bp bv|id f r fees|id p v|id msg|
                                i n ap av bp bv]; cbn [handle].
  - assert (working_tracked (stamped now s)) as Hst.
    { unfold stamped. destruct (_ =? 0); [|exact Hs]. destruct Hs.
      now constructor. }
    destruct (on_order_book_update_message_cases FUTURE now i n ap av bp bv s)
      as [Hn|e _ Hg He|_ Hg|theo b a _ Hg Ht _ _]; cbn [final]; auto.
    + now apply after_theo_tracked.
    + apply after_theo_tracked. destruct Hst. now constructor.
  - rewrite on_order_status_message_returns. cbn [final].
    destruct (r =? 0); [now apply closed_tracked | exact Hs].
  - rewrite on_order_filled_message_returns.
    destruct (bool_decide _); [|destruct (bool_decide _)]; cbn [final];
      try exact Hs; destruct Hs; now constructor.
  - rewrite on_error_message_cases. destruct (decode _); [|exact Hs].
    rewrite on_order_status_message_returns. now apply closed_tracked.
  - exact Hs.
Qed.

Lemma run_tracked evs s :
  inv s -> working_tracked s -> working_tracked (fst (runs s evs)).
Proof.
  revert s. induction evs as [|ev evs IH]; intros s Hi Hs; [exact Hs|].
  cbn [run].
  specialize (IH _ (handle_inv FUTURE MINIMUM_BID MAXIMUM_ASK ev s Hi)
                (handle_tracked ev s Hi Hs)).
  now destruct (runs (final (step ev s)) evs).
Qed.

(** X7. After any sequence of events: a working quote is tracked on its
    side, the two working identities differ, no identity is tracked on
    both sides, and every tracked identity was issued by the counter. *)
Theorem tracked_identities_invariant evs :
  let s := fst (runs init evs) in
  (bid_id s <> 0 -> bid_id s ∈ bids s /\ bid_id s <> ask_id s) /\
  (ask_id s <> 0 -> ask_id s ∈ asks s) /\
  (forall x, x ∈ bids s -> x ∉ asks s) /\
  (forall x, x ∈ bids s \/ x ∈ asks s -> 1 <= x < order_ids s).
Proof.
  cbv zeta.
  pose proof (run_inv FUTURE MINIMUM_BID MAXIMUM_ASK evs init init_inv) as Hi.
  destruct (run_tracked evs init init_inv init_tracked) as [Hb Ha].
  destruct Hi as [_ [_ _ _ Hd Hbs Has Hdj] _].
  split; [auto|]. split; [exact Ha|]. split; [exact Hdj|].
  intros x [H|H]; auto.
Qed.

End Tracking.

(** ** How the tracked sets move *)

Lemma sets_fresh_refl s : sets_fresh s s.
Proof. constructor; auto; lia. Qed.

Lemma sets_fresh_trans s1 s2 s3 :
  sets_fresh s1 s2 -> sets_fresh s2 s3 -> sets_fresh s1 s3.
Proof.
  intros [L1 B1 A1] [L2 B2 A2]. constructor; [lia| |].
  - intros x [H|H]%B2; [apply B1 in H as [H|H]; [now left|right; lia]|right; lia].
  - intros x [H|H]%A2; [apply A1 in H as [H|H]; [now left|right; lia]|right; lia].
Qed.

Lemma sets_kept_refl s : sets_kept s s.
Proof. constructor; auto. Qed.

Lemma sets_kept_trans s1 s2 s3 :
  sets_kept s1 s2 -> sets_kept s2 s3 -> sets_kept s1 s3.
Proof. intros [B1 A1] [B2 A2]. constructor; auto. Qed.

Lemma cancel_sets s :
  sets_fresh s (cancel_ask (cancel_bid s)) /\
  sets_kept s (cancel_ask (cancel_bid s)).
Proof.
  destruct_trader s. unfold cancel_ask, cancel_bid; cbn.
  destruct (stale bi nbp bp); cbn; destruct (stale ai nap ap); cbn;
    split; constructor; cbn; auto; lia.
Qed.

Lemma place_sets s :
  sets_fresh s (place_ask (place_bid s)) /\
  sets_kept s (place_ask (place_bid s)).
Proof.
  destruct_trader s. unfold place_ask, place_bid; cbn.
  destruct (quotable bi nbp bv); cbn; destruct (quotable ai nap av); cbn;
    split; constructor; cbn; auto; try lia; intros x;
    rewrite ?elem_of_union, ?elem_of_singleton; intuition lia.
Qed.

Lemma after_theo_sets now s :
  sets_fresh s (final (after_theo now s)) /\
  sets_kept s (final (after_theo now s)).
Proof.
  unfold after_theo. cbv zeta.
  assert (let s2 := if action_count s <=? 16
                    then cancel_ask (cancel_bid s) else s in
          sets_fresh s s2 /\ sets_kept s s2) as H.
  { cbv zeta. destruct (_ <=? 16); [apply cancel_sets|].
    split; [apply sets_fresh_refl | apply sets_kept_refl]. }
  cbv zeta in H. revert H.
  generalize (if action_count s <=? 16 then cancel_ask (cancel_bid s) else s).
  intros s2 [Hf Hk].
  destruct (action_count s2 <=? 14); [|destruct (14 <=? action_count s2)];
    cbn [final]; [| |now split].
  - destruct (place_sets (sized s2)) as [Hf' Hk'].
    split; [apply (sets_fresh_trans s s2) | apply (sets_kept_trans s s2)];
      auto; [destruct Hf' | destruct Hk']; now constructor.
  - split; [destruct Hf | destruct Hk]; now constructor.
Qed.

Lemma book_update_sets FUTURE now i n ap av bp bv s :
  let o := on_order_book_update_message FUTURE now i n ap av bp bv s in
  sets_fresh s (final o) /\ sets_kept s (final o).
Proof.
  cbv zeta.
  assert (sets_fresh s (stamped now s) /\ sets_kept s (stamped now s)) as [Hf Hk].
  { unfold stamped. destruct (_ =? 0).
    - split; constructor; cbn; auto; lia.
    - split; [apply sets_fresh_refl | apply sets_kept_refl]. }
  destruct (on_order_book_update_message_cases FUTURE now i n ap av bp bv s)
    as [Hn|e _ Hg He|_ Hg|theo b a _ Hg Ht _ _]; cbn [final].
  - split; [apply sets_fresh_refl | apply sets_kept_refl].
  - now split.
  - destruct (after_theo_sets now (stamped now s)) as [Hf' Hk'].
    split; [eapply sets_fresh_trans | eapply sets_kept_trans]; eauto.
  - destruct (after_theo_sets now (retarget theo b a (stamped now s)))
      as [Hf' Hk'].
    split; [apply (sets_fresh_trans s (stamped now s))
           | apply (sets_kept_trans s (stamped now s))];
      auto; [destruct Hf' | destruct Hk']; now constructor.
Qed.

Lemma closed_sets id s :
  sets_fresh s (closed id s) /\
  (forall x, x <> id -> (x ∈ bids s -> x ∈ bids (closed id s)) /\
                        (x ∈ asks s -> x ∈ asks (closed id s))).
Proof.
  unfold closed. destruct_trader s; cbn.
  destruct (id =? bi); [|destruct (id =? ai)]; cbn;
    (split; [constructor; cbn; [lia|..];
             intros x [H _]%elem_of_difference; now left|]);
    intros x Hx; split; intros H; apply elem_of_difference;
    rewrite elem_of_singleton; auto.
Qed.

Lemma hedge_ids_app out1 out2 :
  hedge_ids (out1 ++ out2) = hedge_ids out1 ++ hedge_ids out2.
Proof. apply omap_app. Qed.

Lemma book_update_no_hedge FUTURE now i n ap av bp bv s :
  hedge_ids (sent (on_order_book_update_message FUTURE now i n
                     ap av bp bv s)) = [].
Proof.
  pose proof (fun c => book_update_commands FUTURE now i n ap av bp bv s c) as H.
  cbv zeta in H. revert H.
  generalize (sent (on_order_book_update_message FUTURE now i n ap av bp bv s)).
  induction l as [|c l IH]; intros H; [reflexivity|].
  unfold hedge_ids in *. cbn [omap list_omap].
  rewrite IH by (intros c' Hc'; apply H; now right).
  destruct (H c) as [[id ->]|[[d ->]|[(id & -> & _)|(id & -> & _)]]];
    [now left|reflexivity..].
Qed.

Section TrackedSets.
Variables FUTURE MINIMUM_BID MAXIMUM_ASK : Z.

Local Abbreviation step := (handle FUTURE MINIMUM_BID MAXIMUM_ASK).
Local Abbreviation runs := (run FUTURE MINIMUM_BID MAXIMUM_ASK).

Lemma handle_sets_fresh ev s : sets_fresh s (final (step ev s)).
Proof.
  destruct ev as [now i n ap av bp bv|id f r fees|id p v|id msg|
                  i n ap av bp bv]; cbn [handle].
  - apply book_update_sets.
  - rewrite on_order_status_message_returns. cbn [final].
    destruct (r =? 0); [apply closed_sets | apply sets_fresh_refl].
  - rewrite on_order_filled_message_returns.
    destruct (bool_decide _); [|destruct (bool_decide _)]; cbn [final];
      try apply sets_fresh_refl; constructor; cbn; auto; lia.
  - rewrite on_error_message_cases.
    destruct (decode _); [|apply sets_fresh_refl].
    rewrite on_order_status_message_returns. apply closed_sets.
  - apply sets_fresh_refl.
Qed.

Lemma run_sets_fresh evs s : sets_fresh s (fst (runs s evs)).
Proof.
  revert s. induction evs as [|ev evs IH]; intros s; [apply sets_fresh_refl|].
  cbn [run]. specialize (IH (final (step ev s))).
  destruct (runs (final (step ev s)) evs) as [s' out]. cbn [fst] in *.
  eapply sets_fresh_trans; [apply handle_sets_fresh | exact IH].
Qed.

(** A hedge takes the counter's value and leaves the sets alone. *)
Lemma handle_hedge ev s h :
  h ∈ hedge_ids (sent (step ev s)) ->
  h = order_ids s /\
  order_ids (final (step ev s)) = order_ids s + 1 /\
  bids (final (step ev s)) = bids s /\
  asks (final (step ev s)) = asks s.
Proof.
  destruct ev as [now i n ap av bp bv|id f r fees|id p v|id msg|
                  i n ap av bp bv]; cbn [handle].
  - rewrite book_update_no_hedge. now intros H%elem_of_nil.
  - rewrite on_order_status_message_returns. now intros H%elem_of_nil.
  - rewrite on_order_filled_message_returns.
    destruct (bool_decide _); [|destruct (bool_decide _)]; cbn;
      try (now intros H%elem_of_nil);
      intros H%list_elem_of_singleton; now subst.
  - rewrite on_error_message_cases.
    destruct (decode _); [|now intros H%elem_of_nil].
    rewrite on_order_status_message_returns. now intros H%elem_of_nil.
  - now intros H%elem_of_nil.
Qed.

Lemma run_hedge_untracked evs s h :
  inv s ->
  h ∈ hedge_ids (snd (runs s evs)) ->
  (h ∉ bids (fst (runs s evs))) /\ (h ∉ asks (fst (runs s evs))).
Proof.
  revert s. induction evs as [|ev evs IH]; intros s Hs.
  - cbn. now intros H%elem_of_nil.
  - cbn [run]. specialize (IH (final (step ev s))
                             (handle_inv FUTURE MINIMUM_BID MAXIMUM_ASK ev s Hs)).
    pose proof (run_sets_fresh evs (final (step ev s))) as Hf.
    destruct (runs (final (step ev s)) evs) as [s' out]. cbn [fst snd] in *.
    rewrite hedge_ids_app, elem_of_app. intros [H|H]; [|now apply IH].
    apply handle_hedge in H as (-> & Eo & Eb & Ea).
    destruct Hs as [_ [_ _ _ _ Hbs Has _] _].
    destruct Hf as [_ Fb Fa]. rewrite Eo, Eb, Ea in *.
    split; intros Hx; [apply Fb in Hx as [Hx|Hx] | apply Fa in Hx as [Hx|Hx]];
      try lia; [apply Hbs in Hx | apply Has in Hx]; lia.
Qed.

(** X8. The identity of a hedge is never tracked: after any sequence of
    events, an identity the trader gave to a hedge is in neither set,
    so a fill reported for a hedge changes nothing and is not hedged
    again. *)
Theorem hedge_fill_changes_nothing evs h price volume :
  h ∈ hedge_ids (snd (runs init evs)) ->
  let s := fst (runs init evs) in
  (h ∉ bids s) /\ (h ∉ asks s) /\
  on_order_filled_message MINIMUM_BID MAXIMUM_ASK h price volume s
  = Returned tt s [].
Proof.
  intros H. cbv zeta.
  destruct (run_hedge_untracked evs init h init_inv H) as [Hb Ha].
  repeat split; auto.
  rewrite on_order_filled_message_returns.
  now rewrite !bool_decide_eq_false_2.
Qed.

(** X9. An identity leaves the tracked sets only when its order is
    reported done: if an event drops [x] from [bids] or from [asks], the
    event is the status of [x] with remaining volume 0 or an error for
    [x]. Book updates, cancellations among them, and fills keep what is
    tracked. *)
Theorem untracked_only_when_done ev s x :
  (x ∈ bids s /\ x ∉ bids (final (step ev s))) \/
  (x ∈ asks s /\ x ∉ asks (final (step ev s))) ->
  (exists fill fees, ev = OrderStatus x fill 0 fees) \/
  (exists msg, ev = Error x msg).
Proof.
  assert (forall s', sets_kept s s' ->
            (x ∈ bids s /\ x ∉ bids s') \/ (x ∈ asks s /\ x ∉ asks s') -> False)
    as Hk by (intros s' [Hb Ha] [[H1 H2]|[H1 H2]]; auto).
  destruct ev as [now i n ap av bp bv|id f r fees|id p v|id msg|
                  i n ap av bp bv]; cbn [handle].
  - intros H. exfalso. eapply Hk; [|exact H]. apply book_update_sets.
  - rewrite on_order_status_message_returns. cbn [final].
    destruct (Z.eqb_spec r 0) as [->|Hr].
    + destruct (Z.eq_dec x id) as [->|Hne]; [left; eauto|].
      destruct (closed_sets id s) as [_ Hc]. destruct (Hc x Hne). tauto.
    + intros H. exfalso. eapply Hk; [apply sets_kept_refl | exact H].
  - rewrite on_order_filled_message_returns. intros H. exfalso.
    eapply Hk; [|exact H].
    destruct (bool_decide _); [|destruct (bool_decide _)]; cbn [final];
      constructor; auto.
  - rewrite on_error_message_cases. destruct (decode _).
    + rewrite on_order_status_message_returns. change (0 =? 0) with true.
      cbn [final]. destruct (Z.eq_dec x id) as [->|Hne]; [right; eauto|].
      destruct (closed_sets id s) as [_ Hc]. destruct (Hc x Hne). tauto.
    + intros H. exfalso. eapply Hk; [apply sets_kept_refl | exact H].
  - intros H. exfalso. eapply Hk; [apply sets_kept_refl | exact H].
Qed.

End TrackedSets.

(** ** Status reports and errors *)

Section Reports.
Variables FUTURE MINIMUM_BID MAXIMUM_ASK : Z.

Local Abbreviation runs := (run FUTURE MINIMUM_BID MAXIMUM_ASK).

(** X10. A repeated report is harmless: in any state the trader can
    reach, once an order has been reported done (remaining volume 0),
    reporting it done again changes nothing. *)
Theorem status_done_is_idempotent evs id fill1 fees1 fill2 fees2 :
  let s := fst (runs init evs) in
  let s1 := final (on_order_status_message id fill1 0 fees1 s) in
  on_order_status_message id fill2 0 fees2 s1 = Returned tt s1 [].
Proof.
  cbv zeta.
  pose proof (run_inv FUTURE MINIMUM_BID MAXIMUM_ASK evs init init_inv)
    as [_ [_ _ _ Hd _ _ _] _].
  set (s := fst (runs init evs)) in *.
  rewrite !on_order_status_message_returns. change (0 =? 0) with true.
  cbn [final]. f_equal. unfold closed.
  destruct_trader s; cbn in *.
  assert (forall X : gset Z, X ∖ {[id]} ∖ {[id]} = X ∖ {[id]}) as E
    by (intros X; apply set_eq; intros x;
        rewrite !elem_of_difference; tauto).
  destruct (Z.eqb_spec id bi) as [->|Hb]; cbn.
  - destruct (Z.eqb_spec bi 0) as [->|H0]; cbn; [now rewrite !E|].
    destruct (Z.eqb_spec bi ai) as [->|Ha]; [now destruct (Hd H0)|].
    cbn. now rewrite !E.
  - destruct (Z.eqb_spec id ai) as [->|Ha]; cbn.
    + rewrite (proj2 (Z.eqb_neq ai bi)) by exact Hb.
      destruct (Z.eqb_spec ai 0); cbn; now rewrite !E.
    + rewrite (proj2 (Z.eqb_neq id bi)), (proj2 (Z.eqb_neq id ai)) by assumption.
      cbn. now rewrite !E.
Qed.

End Reports.




(** ** Exceptions *)

Lemma getitem_raises {A} (l : list A) i e :
  getitem l i = Raise e -> e = IndexError.
Proof.
  unfold getitem. cbv zeta.
  destruct (_ <? 0); [congruence|].
  destruct (nth_error _ _); congruence.
Qed.

Lemma getitem_length {A} (l : list A) i x :
  0 <= i -> getitem l i = Ok x -> (Z.to_nat i < length l)%nat.
Proof.
  intros Hi. unfold getitem. cbv zeta.
  rewrite (proj2 (Z.ltb_ge i 0)), (proj2 (Z.ltb_ge i 0)) by lia.
  destruct (nth_error l (Z.to_nat i)) eqn:E; [|discriminate].
  intros _. apply nth_error_Some. congruence.
Qed.

Lemma int_mul_float_raises n w e :
  int_mul_float n w = Raise e -> e = OverflowError.
Proof.
  unfold int_mul_float, float_of_int. run_m. cbv zeta.
  destruct (is_infinity _); congruence.
Qed.

Lemma truediv_raises a b e : truediv a b = Raise e -> e = ZeroDivisionError.
Proof. unfold truediv. destruct (b =? 0)%float; congruence. Qed.

Lemma truediv_int_100 a : truediv_int a 100 = Ok (a / 0x1.9p+6)%float.
Proof. reflexivity. Qed.

Lemma int_of_float_raises f e :
  int_of_float f = Raise e -> e = ValueError \/ e = OverflowError.
Proof.
  unfold int_of_float. destruct (Prim2SF f); intros [= <-]; auto.
Qed.

Lemma rbind_ok {A B} (a : A) (k : A -> result B) : rbind (Ok a) k = k a.
Proof. reflexivity. Qed.

Lemma rbind_raise {A B} e (k : A -> result B) : rbind (Raise e) k = Raise e.
Proof. reflexivity. Qed.

(** The average raises only for a missing level, an integer too large
    for a float, or a zero divisor. *)
Lemma weighted_average_raises ap av bp bv e :
  weighted_average ap av bp bv = Raise e ->
  e = IndexError \/ e = OverflowError \/ e = ZeroDivisionError.
Proof.
  unfold weighted_average. cbv beta delta [mbind result_bind].
  repeat match goal with
  | |- rbind (Ok _) _ = Raise _ -> _ => rewrite rbind_ok
  | |- rbind ?r _ = Raise _ -> _ =>
      let E := fresh "E" in
      destruct r eqn:E;
      [ rewrite rbind_ok
      | rewrite rbind_raise; intros [= <-];
        first [ apply getitem_raises in E
              | apply int_mul_float_raises in E ];
        subst; auto ]
  end.
  intros Hd. apply truediv_raises in Hd. auto.
Qed.

Lemma theoretical_price_raises ap av bp bv e :
  theoretical_price ap av bp bv = Raise e ->
  In e [IndexError; OverflowError; ZeroDivisionError; ValueError].
Proof.
  unfold theoretical_price. run_m.
  destruct (weighted_average ap av bp bv) as [avg|e'] eqn:E.
  - rewrite truediv_int_100.
    destruct (int_of_float _) eqn:E'; [discriminate|].
    intros [= <-]. apply int_of_float_raises in E'.
    destruct E' as [-> | ->]; cbn; auto.
  - intros [= <-]. apply weighted_average_raises in E.
    destruct E as [-> | [-> | ->]]; cbn; auto.
Qed.

(** With fewer than two levels on a side the average raises,
    [IndexError] unless an earlier product was already too large for a
    float. *)
Lemma weighted_average_short ap av bp bv :
  (length ap < 2 \/ length av < 2 \/ length bp < 2 \/ length bv < 2)%nat ->
  weighted_average ap av bp bv = Raise IndexError \/
  weighted_average ap av bp bv = Raise OverflowError.
Proof.
  intros H. unfold weighted_average.
  cbv beta delta [mbind result_bind].
  repeat match goal with
  | |- rbind (Ok _) _ = _ \/ _ => rewrite !rbind_ok
  | |- rbind ?r _ = _ \/ _ =>
      let E := fresh "E" in
      destruct r eqn:E;
      [ rewrite !rbind_ok
      | rewrite !rbind_raise;
        first [ apply getitem_raises in E
              | apply int_mul_float_raises in E ];
        subst; auto ]
  end.
  repeat match goal with
  | E : getitem _ 1 = Ok _ |- _ => apply getitem_length in E; [|lia]
  end.
  lia.
Qed.

Lemma theoretical_price_short ap av bp bv :
  (length ap < 2 \/ length av < 2 \/ length bp < 2 \/ length bv < 2)%nat ->
  theoretical_price ap av bp bv = Raise IndexError \/
  theoretical_price ap av bp bv = Raise OverflowError.
Proof.
  intros H. unfold theoretical_price.
  destruct (weighted_average_short ap av bp bv H) as [-> | ->]; auto.
Qed.

Section Raising.
Variables FUTURE MINIMUM_BID MAXIMUM_ASK : Z.

Local Abbreviation step := (handle FUTURE MINIMUM_BID MAXIMUM_ASK).

(** X12. Apart from [on_error_message], the one handler that can raise
    is a FUTURE book update whose price is attempted: the exception is
    one of [IndexError], [OverflowError], [ZeroDivisionError] and
    [ValueError], out of the price computation; nothing has been sent
    and no field has changed but the start of the window. The status,
    fill and trade-tick handlers never raise. *)
Theorem raising_handler_is_clean ev s e :
  is_error_message ev = false ->
  raised (step ev s) = Some e ->
  sent (step ev s) = [] /\
  set_start_second (start_second s) (final (step ev s)) = s /\
  exists now i n ap av bp bv,
    ev = OrderBookUpdate now i n ap av bp bv /\
    i = FUTURE /\ theo_attempted bp s = true /\
    theoretical_price ap av bp bv = Raise e /\
    In e [IndexError; OverflowError; ZeroDivisionError; ValueError].
Proof.
  destruct ev as [now i n ap av bp bv|id f r fees|id p v|id msg|i n ap av bp bv];
    cbn [handle is_error_message]; intros He.
  - destruct (on_order_book_update_message_cases FUTURE now i n ap av bp bv s)
      as [Hi|e' Hi Hg Ht|Hi Hg|theo bp0 ap0 Hi Hg Ht Hb Ha];
      try (rewrite after_theo_returns; discriminate); try discriminate.
    intros [= <-]. cbn [sent final].
    split; [reflexivity|]. split.
    + unfold stamped. destruct (action_count s =? 0); now destruct s.
    + pose proof (theoretical_price_raises _ _ _ _ _ Ht).
      exists now, i, n, ap, av, bp, bv. tauto.
  - rewrite on_order_status_message_returns. discriminate.
  - rewrite on_order_filled_message_returns.
    destruct (bool_decide _); [discriminate|].
    destruct (bool_decide _); discriminate.
  - discriminate.
  - discriminate.
Qed.

End Raising.

Lemma theo_attempted_true bp s :
  contains 0 bp = false -> action_count s <= 16 -> theo_attempted bp s = true.
Proof.
  intros H0 Hc. unfold theo_attempted. rewrite H0.
  now rewrite (proj2 (Z.leb_le _ _) Hc).
Qed.

(** X13. A book with fewer than two levels on some side cannot be
    priced: when the price is attempted (no bid price 0, counter at most
    16) the handler raises [IndexError], or [OverflowError] if a product
    before the missing level is too large for a float, having sent
    nothing. The empty bid list is such a book: its 0 test passes. *)
Theorem short_book_raises FUTURE now n ap av bp bv s :
  contains 0 bp = false ->
  action_count s <= 16 ->
  (length ap < 2 \/ length av < 2 \/ length bp < 2 \/ length bv < 2)%nat ->
  let o := on_order_book_update_message FUTURE now FUTURE n ap av bp bv s in
  (raised o = Some IndexError \/ raised o = Some OverflowError) /\
  sent o = [] /\ final o = stamped now s.
Proof.
  intros H0 Hc Hs. cbv zeta.
  pose proof (theo_attempted_true bp s H0 Hc) as Hg.
  pose proof (theoretical_price_short ap av bp bv Hs) as Hp.
  destruct (on_order_book_update_message_cases FUTURE now FUTURE n ap av bp bv s)
    as [Hi|e Hi Hg' Ht|Hi Hg'|theo bp0 ap0 Hi Hg' Ht Hb Ha].
  - congruence.
  - cbn [raised sent final].
    split; [|split; reflexivity].
    destruct Hp as [Hp|Hp]; rewrite Hp in Ht; injection Ht as <-; auto.
  - congruence.
  - destruct Hp as [Hp|Hp]; congruence.
Qed.

(** ** Quotes rest at their targets *)

Lemma cancel_order_ids s : order_ids (cancel_ask (cancel_bid s)) = order_ids s.
Proof.
  destruct_trader s. unfold cancel_ask, cancel_bid; cbn.
  now destruct (stale bi nbp bp); cbn; destruct (stale ai nap ap).
Qed.

Lemma place_rests s :
  1 <= order_ids s -> targets_ok s ->
  rests_at_target (place_ask (place_bid s)).
Proof.
  intros H1 [Hb Ha]. destruct_trader s. unfold place_ask, place_bid; cbn in *.
  destruct (quotable bi nbp bv) eqn:Qb; cbn;
    destruct (quotable ai nap av) eqn:Qa; cbn;
    unfold quotable in *; bool_to_prop; constructor; cbn; lia.
Qed.

Lemma after_theo_rests now s :
  1 <= order_ids s -> action_count s <= 12 ->
  rests_at_target (final (after_theo now s)).
Proof.
  intros H1 Hc. unfold after_theo. cbv zeta.
  rewrite (proj2 (Z.leb_le (action_count s) 16)) by lia.
  pose proof (cancel_count s) as Hcc.
  pose proof (cancel_targets s) as Ht.
  pose proof (cancel_order_ids s) as Ho.
  set (s2 := cancel_ask (cancel_bid s)) in *.
  rewrite (proj2 (Z.leb_le (action_count s2) 14)) by lia.
  cbn [final]. apply place_rests.
  - replace (order_ids (sized s2)) with (order_ids s2) by now destruct s2.
    lia.
  - now apply sized_targets.
Qed.

Section Resting.
Variables FUTURE MINIMUM_BID MAXIMUM_ASK : Z.

Local Abbreviation runs := (run FUTURE MINIMUM_BID MAXIMUM_ASK).

(** X14. Within the action budget the quotes follow the targets: in any
    state the trader can reach with the counter at most 12, a FUTURE
    book update that does not raise leaves, on each side whose target
    price and sized volume are not 0, an order working at exactly the
    target price. *)
Theorem quotes_rest_at_targets evs now n ap av bp bv :
  let s := fst (runs init evs) in
  let o := on_order_book_update_message FUTURE now FUTURE n ap av bp bv s in
  action_count s <= 12 ->
  raised o = None ->
  rests_at_target (final o).
Proof.
  cbv zeta. intros Hc.
  pose proof (run_inv FUTURE MINIMUM_BID MAXIMUM_ASK evs init init_inv)
    as [_ Hi _].
  set (s := fst (runs init evs)) in *.
  destruct (stamped_frame now s) as (Ec & Hsi & _).
  specialize (Hsi Hi).
  destruct (on_order_book_update_message_cases FUTURE now FUTURE n ap av bp bv s)
    as [Hne|e _ _ _|_ _|theo bp0 ap0 _ _ _ _ _].
  - congruence.
  - discriminate.
  - intros _. apply after_theo_rests; [apply Hsi | lia].
  - intros _.
    destruct (retarget_frame theo bp0 ap0 (stamped now s)) as (Er & Hri).
    apply after_theo_rests; [apply Hri, Hsi | lia].
Qed.

End Resting.

(** ** Repeated fills *)

Lemma total_cons v vs : total (v :: vs) = v + total vs.
Proof. reflexivity. Qed.

Section Refills.
Variables FUTURE MINIMUM_BID MAXIMUM_ASK : Z.

Local Abbreviation step := (handle FUTURE MINIMUM_BID MAXIMUM_ASK).
Local Abbreviation runs := (run FUTURE MINIMUM_BID MAXIMUM_ASK).

(** X15. Fills of a tracked order accumulate: however many fills are
    reported for it, and whatever their volumes, each is answered by one
    hedge of its own volume with the next identity, on the side opposite
    to the set that tracks the order, the position moves by the total,
    and the order stays tracked and working. *)
Theorem every_fill_is_hedged id pvs s :
  id ∈ bids s \/ id ∈ asks s ->
  let bought := bool_decide (id ∈ bids s) in
  let hedge k pv :=
    if bought
    then send_hedge_order k ASK (MIN_BID_NEAREST_TICK MINIMUM_BID) (snd pv)
    else send_hedge_order k BID (MAX_ASK_NEAREST_TICK MAXIMUM_ASK) (snd pv) in
  let r := runs s (fills id pvs) in
  snd r = zip_with hedge (seqZ (order_ids s) (Z.of_nat (length pvs))) pvs /\
  position (fst r) =
    position s + (if bought then 1 else -1) * total (map snd pvs) /\
  bids (fst r) = bids s /\ asks (fst r) = asks s /\
  bid_id (fst r) = bid_id s /\ ask_id (fst r) = ask_id s.
Proof.
  intros Hin. cbv zeta. revert s Hin.
  induction pvs as [|[p v] pvs IH]; intros s Hin.
  - cbn. repeat split. destruct (bool_decide _); lia.
  - cbn [fills map run handle fst snd length].
    rewrite on_order_filled_message_returns.
    assert (forall d h,
      let s1 := hedged d s in
      let r := runs s1 (fills id pvs) in
      final (Returned tt s1 [h]) = s1 ->
      (let (s', out) := r in (s', sent (Returned tt s1 [h]) ++ out))
      = (fst r, h :: snd r)) as Hr
      by (intros d h; cbv zeta; intros _; now destruct (runs _ _)).
    assert (forall d, bids (hedged d s) = bids s /\ asks (hedged d s) = asks s /\
                      bid_id (hedged d s) = bid_id s /\
                      ask_id (hedged d s) = ask_id s /\
                      order_ids (hedged d s) = order_ids s + 1 /\
                      position (hedged d s) = position s + d) as Hh
      by (intros d; now destruct s).
    rewrite Nat2Z.inj_succ, seqZ_cons by lia. rewrite Z.pred_succ.
    cbn [zip_with]. rewrite total_cons.
    destruct (bool_decide (id ∈ bids s)) eqn:Eb.
    + cbn [final]. rewrite Hr by reflexivity. cbn [fst snd].
      destruct (Hh v) as (Hb & Ha & Hbi & Hai & Ho & Hp).
      specialize (IH (hedged v s)). rewrite Hb, Ha, Hbi, Hai, Ho, Hp, Eb in IH.
      destruct (IH Hin) as (-> & -> & -> & -> & -> & ->).
      repeat split. lia.
    + destruct (bool_decide (id ∈ asks s)) eqn:Ea.
      * cbn [final]. rewrite Hr by reflexivity. cbn [fst snd].
        destruct (Hh (- v)) as (Hb & Ha' & Hbi & Hai & Ho & Hp).
        specialize (IH (hedged (- v) s)).
        rewrite Hb, Ha', Hbi, Hai, Ho, Hp, Eb in IH.
        destruct (IH Hin) as (-> & -> & -> & -> & -> & ->).
        repeat split. lia.
      * apply bool_decide_eq_false in Eb, Ea. tauto.
Qed.

(** X16. What makes the trader send: a command comes out of a FUTURE
    book update, and is then no hedge, or out of the fill of a tracked
    order, and is then the hedge of that fill with the next identity.
    Status reports, errors, trade ticks and the books of other
    instruments send nothing. *)
Theorem commands_come_from_books_and_fills ev s c :
  In c (sent (step ev s)) ->
  match ev with
  | OrderBookUpdate _ i _ _ _ _ _ => i = FUTURE /\ hedge_id c = None
  | OrderFilled id _ v =>
      (id ∈ bids s \/ id ∈ asks s) /\
      exists side price, c = send_hedge_order (order_ids s) side price v
  | _ => False
  end.
Proof.
  destruct ev as [now i n ap av bp bv|id f r fees|id p v|id msg|
                  i n ap av bp bv]; cbn [handle].
  - intros Hc. split.
    + destruct (on_order_book_update_message_cases FUTURE now i n ap av bp bv s)
        as [Hi|e Hi _ _|Hi _|theo bp0 ap0 Hi _ _ _ _]; auto.
      now cbn in Hc.
    + pose proof (book_update_no_hedge FUTURE now i n ap av bp bv s) as Hn.
      unfold hedge_ids in Hn.
      destruct (hedge_id c) as [h|] eqn:Eh; [|reflexivity].
      assert (h ∈ omap hedge_id
                (sent (on_order_book_update_message FUTURE now i n ap av bp bv s)))
        as Hh by (apply list_elem_of_omap; exists c; split;
                  [now apply list_elem_of_In|exact Eh]).
      rewrite Hn in Hh. now apply elem_of_nil in Hh.
  - rewrite on_order_status_message_returns. intros [].
  - rewrite on_order_filled_message_returns.
    destruct (bool_decide (id ∈ bids s)) eqn:Eb.
    + apply bool_decide_eq_true in Eb. intros [<-|[]]. split; eauto.
    + destruct (bool_decide (id ∈ asks s)) eqn:Ea; [|intros []].
      apply bool_decide_eq_true in Ea. intros [<-|[]]. split; eauto.
  - rewrite on_error_message_cases. destruct (decode msg); [|intros []].
    rewrite on_order_status_message_returns. intros [].
  - intros [].
Qed.

End Refills.

(** ** Instances on concrete runs *)

(** X2 on the first book update: at position 0 both quotes are for 30
    lots. *)
Lemma first_quotes_within_limit :
  - POSITION_LIMIT <= position init <= POSITION_LIMIT /\
  Forall (within_limit (position init))
    (sent (on_order_book_update_message FUTURE_0 10 FUTURE_0 1
             asks_1100 tens bids_1000 tens init)).
Proof.
  assert (- POSITION_LIMIT <= position init <= POSITION_LIMIT) as H
    by (vm_compute; split; discriminate).
  split; [exact H|].
  exact (quotes_respect_position_limit FUTURE_0 10 FUTURE_0 1
           asks_1100 tens bids_1000 tens init H).
Defined.

(** X6 on the first book update. *)
Lemma first_update_does_not_wait :
  let o := on_order_book_update_message FUTURE_0 10 FUTURE_0 1
             asks_1100 tens bids_1000 tens init in
  action_count init <= 12 /\
  Forall (fun c => ~ is_sleep c) (sent o) /\
  action_count init <= action_count (final o) <= action_count init + 4.
Proof.
  cbv zeta.
  assert (action_count init <= 12) as H by (vm_compute; discriminate).
  split; [exact H|].
  exact (no_wait_below_budget FUTURE_0 10 FUTURE_0 1
           asks_1100 tens bids_1000 tens init H).
Defined.

(** X8 on the hedge of the first fill: identity 3. *)
Lemma fill_of_hedge_3_changes_nothing :
  let evs := [book_1050 10; OrderFilled 1 900 10] in
  let s := fst (trader_run init evs) in
  3 ∈ hedge_ids (snd (trader_run init evs)) /\
  on_order_filled_message MINIMUM_BID_1 MAXIMUM_ASK_31 3 100 10 s
  = Returned tt s [].
Proof.
  cbv zeta.
  assert (3 ∈ hedge_ids
                (snd (trader_run init [book_1050 10; OrderFilled 1 900 10])))
    as Hin by (apply (bool_decide_unpack _); vm_compute; exact I).
  split; [exact Hin|].
  exact (proj2 (proj2 (hedge_fill_changes_nothing FUTURE_0 MINIMUM_BID_1
                         MAXIMUM_ASK_31 _ 3 100 10 Hin))).
Defined.

(** X9 on the status that reports bid 1 done. *)
Lemma bid_1_untracked_by_its_status :
  let s := fst (trader_run init [book_1050 10]) in
  let ev := OrderStatus 1 0 0 0 in
  1 ∈ bids s /\
  bool_decide (1 ∈ bids (final (trader_handle ev s))) = false /\
  ((exists fill fees, ev = OrderStatus 1 fill 0 fees) \/
   (exists msg, ev = Error 1 msg)).
Proof.
  cbv zeta. unfold trader_run, trader_handle.
  set (s := fst (run FUTURE_0 MINIMUM_BID_1 MAXIMUM_ASK_31 init
                   [book_1050 10])).
  assert (1 ∈ bids s) as Hin
    by (apply (bool_decide_unpack _); vm_compute; exact I).
  assert (bool_decide
            (1 ∈ bids (final (handle FUTURE_0 MINIMUM_BID_1 MAXIMUM_ASK_31
                                (OrderStatus 1 0 0 0) s))) = false) as Hout
    by (vm_compute; reflexivity).
  pose proof (proj1 (bool_decide_eq_false _) Hout) as Hnot.
  split; [exact Hin|]. split; [exact Hout|].
  exact (untracked_only_when_done FUTURE_0 MINIMUM_BID_1 MAXIMUM_ASK_31
           (OrderStatus 1 0 0 0) s 1 (or_introl (conj Hin Hnot))).
Defined.


(** X12 on a book with no volume at all: the division raises. *)
Lemma empty_volumes_raise_cleanly :
  let ev := OrderBookUpdate 10 FUTURE_0 1 asks_1100 zeros bids_1000 zeros in
  is_error_message ev = false /\
  raised (trader_handle ev init) = Some ZeroDivisionError /\
  sent (trader_handle ev init) = [] /\
  set_start_second (start_second init) (final (trader_handle ev init)) = init.
Proof.
  cbv zeta.
  assert (raised (trader_handle
                    (OrderBookUpdate 10 FUTURE_0 1 asks_1100 zeros bids_1000
                       zeros) init) = Some ZeroDivisionError) as H
    by (vm_compute; reflexivity).
  split; [reflexivity|]. split; [exact H|].
  destruct (raising_handler_is_clean FUTURE_0 MINIMUM_BID_1 MAXIMUM_ASK_31
              (OrderBookUpdate 10 FUTURE_0 1 asks_1100 zeros bids_1000 zeros)
              init ZeroDivisionError eq_refl H) as (Hs & Hf & _).
  split; [exact Hs | exact Hf].
Defined.

(** X13 on a bid side of one level. *)
Lemma one_bid_level_raises :
  let o := on_order_book_update_message FUTURE_0 10 FUTURE_0 1
             asks_1100 tens [1000] [10] init in
  (raised o = Some IndexError \/ raised o = Some OverflowError) /\
  sent o = [] /\ final o = stamped 10 init.
Proof.
  apply short_book_raises.
  - reflexivity.
  - vm_compute; discriminate.
  - right; right; left. cbn. lia.
Defined.

(** X14 on a book that moves both targets from 900 and 1100 to 1900 and
    2100. *)
Lemma moved_quotes_rest_at_targets :
  let s := fst (trader_run init [book_1050 10]) in
  let o := on_order_book_update_message FUTURE_0 11 FUTURE_0 2
             asks_2060 tens bids_2050 tens s in
  action_count s <= 12 /\ raised o = None /\ rests_at_target (final o).
Proof.
  cbv zeta.
  assert (action_count (fst (trader_run init [book_1050 10])) <= 12) as Hc
    by (vm_compute; discriminate).
  assert (raised (on_order_book_update_message FUTURE_0 11 FUTURE_0 2
                    asks_2060 tens bids_2050 tens
                    (fst (trader_run init [book_1050 10]))) = None) as Hr
    by (vm_compute; reflexivity).
  split; [exact Hc|]. split; [exact Hr|].
  exact (quotes_rest_at_targets FUTURE_0 MINIMUM_BID_1 MAXIMUM_ASK_31
           [book_1050 10] 11 2 asks_2060 tens bids_2050 tens Hc Hr).
Defined.

(** X15 on two partial fills of bid 1, of 3 and of 4 lots. *)
Lemma two_fills_of_bid_1 :
  let s := fst (trader_run init [book_1050 10]) in
  let r := trader_run s (fills 1 [(900, 3); (900, 4)]) in
  1 ∈ bids s /\
  snd r = [send_hedge_order 3 SELL 100 3; send_hedge_order 4 SELL 100 4] /\
  position (fst r) = 7 /\ bid_id (fst r) = 1.
Proof.
  cbv zeta. unfold trader_run.
  set (s := fst (run FUTURE_0 MINIMUM_BID_1 MAXIMUM_ASK_31 init
                   [book_1050 10])).
  assert (1 ∈ bids s) as Hin
    by (apply (bool_decide_unpack _); vm_compute; exact I).
  split; [exact Hin|].
  destruct (every_fill_is_hedged FUTURE_0 MINIMUM_BID_1 MAXIMUM_ASK_31
              1 [(900, 3); (900, 4)] s (or_introl Hin))
    as (Hs & Hp & _ & _ & Hb & _).
  split; [rewrite Hs; vm_compute; reflexivity|].
  split; [rewrite Hp; vm_compute; reflexivity|].
  rewrite Hb. vm_compute. reflexivity.
Defined.

(** X16 on the hedge of the first fill. *)
Lemma first_hedge_comes_from_fill :
  let s := fst (trader_run init [book_1050 10]) in
  let c := send_hedge_order 3 SELL 100 10 in
  In c (sent (trader_handle (OrderFilled 1 900 10) s)) /\
  (1 ∈ bids s \/ 1 ∈ asks s) /\
  exists side price, c = send_hedge_order (order_ids s) side price 10.
Proof.
  cbv zeta. unfold trader_run, trader_handle.
  set (s := fst (run FUTURE_0 MINIMUM_BID_1 MAXIMUM_ASK_31 init
                   [book_1050 10])).
  assert (In (send_hedge_order 3 SELL 100 10)
            (sent (handle FUTURE_0 MINIMUM_BID_1 MAXIMUM_ASK_31
                     (OrderFilled 1 900 10) s))) as Hin
    by (vm_compute; left; reflexivity).
  split; [exact Hin|].
  exact (commands_come_from_books_and_fills FUTURE_0 MINIMUM_BID_1
           MAXIMUM_ASK_31 (OrderFilled 1 900 10) s _ Hin).
Defined.
